(** * PDV SaaS backend: the tenant-scoped catalog, sale and reporting routes

    A shallow embedding of the Express routes of the backend server
    (tenant gate, products, sales, statistics, dashboard, and accounts,
    sessions, settings and backup) with the JSON collections passed
    explicitly, followed by the properties of the specification that concern
    them and by further properties of the routes. *)

From Stdlib Require Import ZArith Lia Ascii String.
From Stdlib Require QArith.
From stdpp Require Import base strings list gmap sorting pretty.

Local Open Scope Z_scope.

(** ** JavaScript values

    Numbers are the integers of the source's amounts, counts and ids, with
    [NaN] for the result of a failed numeric coercion. Strings are ASCII. *)

Inductive number := Num (z : Z) | NaN.

Inductive value :=
| VNull
| VBool (b : bool)
| VNum (n : number)
| VStr (s : string).

#[global] Instance number_eq_dec : EqDecision number.
Proof. solve_decision. Defined.
#[global] Instance value_eq_dec : EqDecision value.
Proof. solve_decision. Defined.

(** A JSON object with scalar fields; [o !! k = None] is [o.k === undefined]. *)
Abbreviation obj := (gmap string value).

Definition num_add (a b : number) : number :=
  match a, b with Num x, Num y => Num (x + y) | _, _ => NaN end.

Definition num_sub (a b : number) : number :=
  match a, b with Num x, Num y => Num (x - y) | _, _ => NaN end.

(** [a < b] on numbers: false as soon as one side is [NaN]. *)
Definition num_lt (a b : number) : bool :=
  match a, b with Num x, Num y => x <? y | _, _ => false end.

(** One step of [Math.max]: [NaN] is contagious. *)
Definition num_max (a b : number) : number :=
  match a, b with Num x, Num y => Num (Z.max x y) | _, _ => NaN end.

(** [Math.max(x, ...xs)] on a non-empty argument list. *)
Definition Math_max (x : number) (xs : list number) : number :=
  foldl num_max x xs.

(** [!!v]: undefined, null, false, 0, NaN and the empty string are falsy. *)
Definition truthy (v : option value) : bool :=
  match v with
  | None | Some VNull | Some (VNum NaN) => false
  | Some (VBool b) => b
  | Some (VNum (Num z)) => negb (z =? 0)
  | Some (VStr s) => negb (String.eqb s "")
  end.

(** [!!s] for a field that is a string when it is there. *)
Definition truthy_string (s : option string) : bool := truthy (VStr <$> s).

(** [a === b] on scalars. *)
Definition strict_eq (a b : option value) : bool :=
  match a, b with
  | None, None | Some VNull, Some VNull => true
  | Some (VBool x), Some (VBool y) => Bool.eqb x y
  | Some (VNum (Num x)), Some (VNum (Num y)) => x =? y
  | Some (VStr x), Some (VStr y) => String.eqb x y
  | _, _ => false
  end.

(** [{...target, ...source}]: the keys of [source] win. *)
Definition spread (target source : obj) : obj := source ∪ target.

(** What [JSON.stringify] followed by [JSON.parse] makes of a value:
    [NaN] is written as [null]. *)
Definition stringify_value (v : value) : value :=
  match v with VNum NaN => VNull | _ => v end.

Definition stringify (o : obj) : obj := stringify_value <$> o.

(** [fs.writeFile(FILE, JSON.stringify(collection))] as the next content of
    the collection. *)
Definition writeFile (collection : list obj) : list obj := stringify <$> collection.

(** An object as [JSON.parse] yields it holds no [NaN]. *)
Definition json_clean (o : obj) : Prop := map_Forall (λ _ v, v ≠ VNum NaN) o.

#[global] Instance json_clean_dec (o : obj) : Decision (json_clean o).
Proof. unfold json_clean. apply _. Defined.

(** [l.findIndex(pred)], [None] for -1. *)
Fixpoint findIndex {A} (pred : A → bool) (l : list A) : option nat :=
  match l with
  | [] => None
  | x :: r => if pred x then Some 0%nat else S <$> findIndex pred r
  end.

(** ** Strings *)

Definition lower_char (c : ascii) : ascii :=
  let n := nat_of_ascii c in
  if ((65 <=? n) && (n <=? 90))%nat then ascii_of_nat (n + 32) else c.

(** [s.toLowerCase()] *)
Fixpoint toLowerCase (s : string) : string :=
  match s with
  | EmptyString => EmptyString
  | String c r => String (lower_char c) (toLowerCase r)
  end.

(** [hay.includes(needle)] *)
Fixpoint includes (needle hay : string) : bool :=
  String.prefix needle hay
  || match hay with EmptyString => false | String _ r => includes needle r end.

(** [text.split('T')[0]] *)
Fixpoint before_T (s : string) : string :=
  match s with
  | EmptyString => EmptyString
  | String c r => if Ascii.eqb c "T"%char then EmptyString else String c (before_T r)
  end.

(** ** Time

    A [Date] with the two readings the routes take of it: the text of
    [toISOString()] and the milliseconds that [new Date(text)] compares.
    One reading of the clock stands for the readings a request takes. *)

Record timestamp := { iso : string; epoch_ms : Z }.

(** [new Date().toISOString().split('T')[0]] *)
Definition today_of (now : timestamp) : string := before_T (iso now).

(** ** Sorting

    [Array.prototype.sort] is stable; with a comparator [key b - key a] it
    is the stable sort by descending key. *)

Fixpoint insert_desc {A} (key : A → Z) (x : A) (l : list A) : list A :=
  match l with
  | [] => [x]
  | y :: r => if key y <=? key x then x :: y :: r else y :: insert_desc key x r
  end.

Definition sort_desc {A} (key : A → Z) (l : list A) : list A :=
  foldr (insert_desc key) [] l.

(** ** HTTP replies *)

Inductive reply (A : Type) :=
| Json (status : Z) (payload : A)
| Failure (status : Z) (error : string).
Arguments Json {A} status payload.
Arguments Failure {A} status error.

Definition status_of {A} (r : reply A) : Z :=
  match r with Json s _ | Failure s _ => s end.

(** What a middleware does with a request. *)
Inductive gate (A : Type) :=
| Next (attached : A)
| Stop (status : Z) (error : string).
Arguments Next {A} attached.
Arguments Stop {A} status error.

(** ** Records *)

(** The decoded session token, [req.user]. *)
Module User.
Record t := { id : Z; email : string; role : string; tenantId : Z }.
End User.

Module Tenant.
Record t := {
  id : Z;
  name : string;
  subscriptionStatus : string;
  trialEnds : timestamp;
  isActive : bool
}.
End Tenant.

(** A line item of a sale request. *)
Module Item.
Record t := {
  productId : Z;
  productName : option string;
  price : Z;
  quantity : Z
}.
End Item.

(** What [saleData.items] can be. *)
Inductive items_value :=
| ItemsScalar (v : value)
| ItemsObject
| ItemsArray (l : list Item.t).

(** The body of POST /api/sales. *)
Module SaleData.
Record t := {
  items : option items_value;
  paymentMethod : option string;
  cashReceived : option Z;
  cashChange : option Z;
  notes : option string
}.
End SaleData.

Module Sale.
Record t := {
  id : Z;
  tenantId : Z;
  userId : Z;
  items : list Item.t;
  total : Z;
  paymentMethod : string;
  cashReceived : option Z;
  cashChange : option Z;
  status : string;
  notes : string;
  createdAt : timestamp
}.
End Sale.

(** An entry of the statistics' [productSales] object. *)
Module TopProduct.
Record t := {
  productId : Z;
  productName : string;
  quantity : Z;
  revenue : Z
}.
End TopProduct.

Module Stats.
Record t := {
  totalSales : nat;
  totalRevenue : Z;
  averageTicket : QArith_base.Q;
  topProducts : list TopProduct.t
}.
End Stats.

(** An entry of the dashboard's [recentSales]. *)
Module Recent.
Record t := {
  id : Z;
  total : Z;
  paymentMethod : string;
  createdAt : string;
  itemsCount : nat
}.
End Recent.

Module Overview.
Record t := {
  totalSales : nat;
  totalRevenue : Z;
  lowStockCount : nat;
  averageTicket : QArith_base.Q;
  paymentMethods : gmap string Z;
  recentSales : list Recent.t
}.
End Overview.

(** ** Tenant gate *)

(** The [validateTenant] middleware. *)
Definition validateTenant (user : User.t) (now : timestamp)
    (tenants : list Tenant.t) : gate Tenant.t :=
  match List.find (λ t, Tenant.id t =? User.tenantId user) tenants with
  | None => Stop 403 "Conta inativa ou não encontrada"
  | Some tenant =>
      if negb (Tenant.isActive tenant)
      then Stop 403 "Conta inativa ou não encontrada"
      else if negb (String.eqb (Tenant.subscriptionStatus tenant) "active")
              && (epoch_ms (Tenant.trialEnds tenant) <? epoch_ms now)
      then Stop 403 "Assinatura expirada. Regularize para continuar."
      else Next tenant
  end.

(** ** Catalog routes *)

Section Routes.

(** The numeric reading of a string ([Number(s)]) is the runtime's. *)
Variable StringToNumber : string → number.

Definition ToNumber (v : option value) : number :=
  match v with
  | None => NaN
  | Some VNull => Num 0
  | Some (VBool b) => Num (if b then 1 else 0)
  | Some (VNum n) => n
  | Some (VStr s) => StringToNumber s
  end.

(** [a < b] on values: two strings compare as strings, anything else as
    numbers. *)
Definition js_lt (a b : option value) : bool :=
  match a, b with
  | Some (VStr x), Some (VStr y) => String.ltb x y
  | _, _ => num_lt (ToNumber a) (ToNumber b)
  end.

(** [p.tenantId === req.user.tenantId] *)
Definition owned_by (user : User.t) (p : obj) : bool :=
  strict_eq (p !! "tenantId") (Some (VNum (Num (User.tenantId user)))).

(** GET /api/products *)
Definition get_products (user : User.t) (products : list obj) : reply (list obj) :=
  let tenantProducts := filter (λ p, owned_by user p = true) products in
  Json 200 tenantProducts.

(** [result.filter(pred)] for a predicate that may throw ([None]). *)
Fixpoint filter_throwing {A} (pred : A → option bool) (l : list A) : option (list A) :=
  match l with
  | [] => Some []
  | x :: r =>
      match pred x with
      | None => None
      | Some keep =>
          match filter_throwing pred r with
          | None => None
          | Some r' => Some (if keep then x :: r' else r')
          end
      end
  end.

(** [p.name.toLowerCase().includes(searchTerm) || p.barcode.includes(searchTerm)];
    a method call on a field that is not a string throws a TypeError. *)
Definition matches_term (searchTerm : string) (p : obj) : option bool :=
  match p !! "name" with
  | Some (VStr name) =>
      if includes searchTerm (toLowerCase name) then Some true
      else match p !! "barcode" with
           | Some (VStr barcode) => Some (includes searchTerm barcode)
           | _ => None
           end
  | _ => None
  end.

(** GET /api/products/search?q=&barcode= *)
Definition get_products_search (user : User.t) (q barcode : option string)
    (products : list obj) : reply (list obj) :=
  let tenantProducts := filter (λ p, owned_by user p = true) products in
  let result :=
    if truthy_string barcode
    then Some (filter (λ p, strict_eq (p !! "barcode") (VStr <$> barcode) = true)
                 tenantProducts)
    else if truthy_string q
    then
      let searchTerm := toLowerCase (default "" q) in
      filter_throwing (matches_term searchTerm) tenantProducts
    else Some tenantProducts in
  match result with
  | Some result => Json 200 (take 50 result)
  | None => Failure 500 "Erro ao buscar produtos"
  end.

(** [products.length > 0 ? Math.max(...products.map(p => p.id)) + 1 : 1] *)
Definition next_product_id (products : list obj) : number :=
  match (λ p : obj, ToNumber (p !! "id")) <$> products with
  | [] => Num 1
  | x :: xs => num_add (Math_max x xs) (Num 1)
  end.

(** POST /api/products: the reply and the products collection afterwards. *)
Definition post_products (user : User.t) (now : timestamp) (product : obj)
    (products : list obj) : reply obj * list obj :=
  if negb (truthy (product !! "name")) || negb (truthy (product !! "price"))
     || bool_decide (product !! "stock" = None)
  then (Failure 400 "Nome, preço e estoque são obrigatórios", products)
  else
    let newId := next_product_id products in
    let newProduct :=
      <["updatedAt" := VStr (iso now)]>
        (<["createdAt" := VStr (iso now)]>
           (spread
              (<["tenantId" := VNum (Num (User.tenantId user))]>
                 (<["id" := VNum newId]> ∅))
              product)) in
    (Json 201 newProduct, writeFile (products ++ [newProduct])).

(** PUT /api/products/:id, with [productId = parseInt(req.params.id)]. *)
Definition put_products (user : User.t) (now : timestamp) (productId : number)
    (updates : obj) (products : list obj) : reply obj * list obj :=
  match findIndex (λ p, strict_eq (p !! "id") (Some (VNum productId))
                        && owned_by user p) products with
  | None => (Failure 404 "Produto não encontrado", products)
  | Some index =>
      match products !! index with
      | None => (Failure 404 "Produto não encontrado", products)
      | Some p =>
          let p' := <["updatedAt" := VStr (iso now)]> (spread p updates) in
          (Json 200 p', writeFile (<[index := p']> products))
      end
  end.

(** ** Sale processor *)

(** [Array.isArray(saleData.items)] *)
Definition isArray (v : option items_value) : bool :=
  match v with Some (ItemsArray _) => true | _ => false end.

(** [!!saleData.items]: objects and arrays are truthy. *)
Definition truthy_items (v : option items_value) : bool :=
  match v with
  | None => false
  | Some (ItemsScalar s) => truthy (Some s)
  | Some ItemsObject | Some (ItemsArray _) => true
  end.

(** The elements of [saleData.items] once it is known to be an array. *)
Definition elements (v : option items_value) : list Item.t :=
  match v with Some (ItemsArray l) => l | _ => [] end.

(** [sales.length > 0 ? Math.max(...sales.map(s => s.id)) + 1 : 1] *)
Definition next_sale_id (sales : list Sale.t) : Z :=
  match Sale.id <$> sales with
  | [] => 1
  | x :: xs => foldl Z.max x xs + 1
  end.

(** [items.reduce((sum, item) => sum + (item.price * item.quantity), 0)] *)
Definition sale_total (items : list Item.t) : Z :=
  foldl (λ sum item, sum + Item.price item * Item.quantity item) 0 items.

(** [p.id === item.productId && p.tenantId === req.user.tenantId] *)
Definition sold_product (user : User.t) (item : Item.t) (p : obj) : bool :=
  strict_eq (p !! "id") (Some (VNum (Num (Item.productId item))))
  && owned_by user p.

(** The stock update of a matched product: decrement, stamp, clamp. *)
Definition decrement_stock (now : timestamp) (item : Item.t) (p : obj) : obj :=
  let stock := num_sub (ToNumber (p !! "stock")) (Num (Item.quantity item)) in
  let p' := <["updatedAt" := VStr (iso now)]> (<["stock" := VNum stock]> p) in
  if num_lt stock (Num 0) then <["stock" := VNum (Num 0)]> p' else p'.

(** The body of the loop over the line items. *)
Definition adjust_stock (user : User.t) (now : timestamp)
    (products : list obj) (item : Item.t) : list obj :=
  match findIndex (sold_product user item) products with
  | None => products
  | Some productIndex =>
      match products !! productIndex with
      | None => products
      | Some p => <[productIndex := decrement_stock now item p]> products
      end
  end.

(** [for (const item of saleData.items) { ... }] *)
Definition adjust_stocks (user : User.t) (now : timestamp)
    (items : list Item.t) (products : list obj) : list obj :=
  foldl (adjust_stock user now) products items.

(** [x || null] on an optional number. *)
Definition or_null (x : option Z) : option Z :=
  match x with Some 0 | None => None | Some z => Some z end.

(** [x || ''] on an optional string. *)
Definition or_empty (x : option string) : string := default "" x.

(** POST /api/sales: the reply, and the sales and products collections
    afterwards. *)
Definition post_sales (user : User.t) (now : timestamp) (saleData : SaleData.t)
    (sales : list Sale.t) (products : list obj)
    : reply Sale.t * list Sale.t * list obj :=
  if negb (truthy_items (SaleData.items saleData))
     || negb (isArray (SaleData.items saleData))
     || (length (elements (SaleData.items saleData)) =? 0)%nat
  then (Failure 400 "Itens da venda são obrigatórios", sales, products)
  else if negb (truthy_string (SaleData.paymentMethod saleData))
  then (Failure 400 "Método de pagamento é obrigatório", sales, products)
  else
    let items := elements (SaleData.items saleData) in
    let newSale := {|
      Sale.id := next_sale_id sales;
      Sale.tenantId := User.tenantId user;
      Sale.userId := User.id user;
      Sale.items := items;
      Sale.total := sale_total items;
      Sale.paymentMethod := default "" (SaleData.paymentMethod saleData);
      Sale.cashReceived := or_null (SaleData.cashReceived saleData);
      Sale.cashChange := or_null (SaleData.cashChange saleData);
      Sale.status := "completed";
      Sale.notes := or_empty (SaleData.notes saleData);
      Sale.createdAt := now
    |} in
    (Json 201 newSale, sales ++ [newSale],
     writeFile (adjust_stocks user now items products)).

(** ** Reporting engine *)

(** [s.tenantId === req.user.tenantId && s.status === 'completed'] *)
Definition completed_for (user : User.t) (s : Sale.t) : bool :=
  (Sale.tenantId s =? User.tenantId user) && String.eqb (Sale.status s) "completed".

(** [s.createdAt.startsWith(today)] *)
Definition created_on (today : string) (s : Sale.t) : bool :=
  String.prefix today (iso (Sale.createdAt s)).

(** GET /api/sales/today *)
Definition get_sales_today (user : User.t) (now : timestamp)
    (sales : list Sale.t) : reply (list Sale.t) :=
  let today := today_of now in
  let todaySales :=
    filter (λ s, (Sale.tenantId s =? User.tenantId user)
                 && created_on today s
                 && String.eqb (Sale.status s) "completed" = true) sales in
  Json 200 todaySales.

(** [sales.reduce((sum, sale) => sum + sale.total, 0)] *)
Definition revenue_of (sales : list Sale.t) : Z :=
  foldl (λ sum sale, sum + Sale.total sale) 0 sales.

(** [totalSales > 0 ? totalRevenue / totalSales : 0], as an exact quotient. *)
Definition average_ticket (totalSales : nat) (totalRevenue : Z) : QArith_base.Q :=
  if (0 <? totalSales)%nat
  then QArith_base.Qmake totalRevenue (Pos.of_nat totalSales)
  else QArith_base.Qmake 0 1.

(** [item.productName || `Produto ${item.productId}`] *)
Definition display_name (item : Item.t) : string :=
  if truthy_string (Item.productName item)
  then default "" (Item.productName item)
  else "Produto " +:+ pretty (Item.productId item).

(** The entry a product gets when it is first met. *)
Definition fresh_entry (item : Item.t) : TopProduct.t := {|
  TopProduct.productId := Item.productId item;
  TopProduct.productName := display_name item;
  TopProduct.quantity := 0;
  TopProduct.revenue := 0
|}.

(** [productSales[item.productId]] is there. The object is kept as the list
    of its entries in the order their keys were created. *)
Definition has_entry (productId : Z) (productSales : list TopProduct.t) : bool :=
  existsb (λ e, TopProduct.productId e =? productId) productSales.

(** [productSales[item.productId].quantity += item.quantity] and the same
    for the revenue. *)
Fixpoint add_item (item : Item.t) (productSales : list TopProduct.t)
    : list TopProduct.t :=
  match productSales with
  | [] => []
  | e :: r =>
      if TopProduct.productId e =? Item.productId item
      then {| TopProduct.productId := TopProduct.productId e;
              TopProduct.productName := TopProduct.productName e;
              TopProduct.quantity := TopProduct.quantity e + Item.quantity item;
              TopProduct.revenue :=
                TopProduct.revenue e + Item.price item * Item.quantity item |} :: r
      else e :: add_item item r
  end.

(** The body of the inner [forEach]. *)
Definition tally (productSales : list TopProduct.t) (item : Item.t)
    : list TopProduct.t :=
  add_item item
    (if has_entry (Item.productId item) productSales then productSales
     else productSales ++ [fresh_entry item]).

(** [filteredSales.forEach(sale => sale.items.forEach(item => ...))] *)
Definition productSales (filteredSales : list Sale.t) : list TopProduct.t :=
  foldl (λ acc sale, foldl tally acc (Sale.items sale)) [] filteredSales.




(** The sales the statistics are computed from. *)
Definition stats_sales (user : User.t) (startDate endDate : option string)
    (sales : list Sale.t) : list Sale.t :=
  let filteredSales := filter (λ s, completed_for user s = true) sales in
  let filteredSales :=
    if truthy_string startDate
    then filter (λ s, String.leb (default "" startDate) (iso (Sale.createdAt s)) = true)
           filteredSales
    else filteredSales in
  if truthy_string endDate
  then filter (λ s, String.leb (iso (Sale.createdAt s))
                      (default "" endDate +:+ "T23:59:59.999Z") = true)
         filteredSales
  else filteredSales.


(** [p.stock < (p.lowStockAlert || 5)] *)
Definition low_stock (p : obj) : bool :=
  js_lt (p !! "stock")
    (if truthy (p !! "lowStockAlert") then p !! "lowStockAlert"
     else Some (VNum (Num 5))).

(** The body of the [forEach] that counts the payment methods. *)
Definition count_method (paymentMethods : gmap string Z) (sale : Sale.t)
    : gmap string Z :=
  let method :=
    if truthy_string (Some (Sale.paymentMethod sale))
    then Sale.paymentMethod sale else "unknown" in
  <[method := default 0 (paymentMethods !! method) + 1]> paymentMethods.

(** The projection of a sale in [recentSales]. *)
Definition summary (sale : Sale.t) : Recent.t := {|
  Recent.id := Sale.id sale;
  Recent.total := Sale.total sale;
  Recent.paymentMethod := Sale.paymentMethod sale;
  Recent.createdAt := iso (Sale.createdAt sale);
  Recent.itemsCount := length (Sale.items sale)
|}.

(** GET /api/dashboard/overview *)
Definition get_dashboard_overview (user : User.t) (now : timestamp)
    (sales : list Sale.t) (products : list obj) : reply Overview.t :=
  let today := today_of now in
  let tenantSales := filter (λ s, completed_for user s = true) sales in
  let tenantProducts := filter (λ p, owned_by user p = true) products in
  let todaySales := filter (λ s, created_on today s = true) tenantSales in
  let totalSales := length todaySales in
  let totalRevenue := revenue_of todaySales in
  let lowStockCount := length (filter (λ p, low_stock p = true) tenantProducts) in
  let averageTicket := average_ticket totalSales totalRevenue in
  let paymentMethods := foldl count_method ∅ todaySales in
  let recentSales :=
    summary <$> take 10 (sort_desc (λ s, epoch_ms (Sale.createdAt s)) tenantSales) in
  Json 200 {|
    Overview.totalSales := totalSales;
    Overview.totalRevenue := totalRevenue;
    Overview.lowStockCount := lowStockCount;
    Overview.averageTicket := averageTicket;
    Overview.paymentMethods := paymentMethods;
    Overview.recentSales := recentSales
  |}.

End Routes.

(** ** Accounts, sessions and settings *)

(** A stored user. *)
Module Account.
Record t := {
  id : Z;
  email : string;
  password : string;
  name : string;
  role : string;
  tenantId : Z;
  isActive : bool;
  createdAt : timestamp
}.
End Account.

(** A user as the routes answer it, [userWithoutPassword]. *)
Module Profile.
Record t := {
  id : Z;
  email : string;
  name : string;
  role : string;
  tenantId : Z;
  isActive : bool;
  createdAt : timestamp
}.
End Profile.

(** [const { password: _, ...userWithoutPassword } = user] *)
Definition without_password (user : Account.t) : Profile.t := {|
  Profile.id := Account.id user;
  Profile.email := Account.email user;
  Profile.name := Account.name user;
  Profile.role := Account.role user;
  Profile.tenantId := Account.tenantId user;
  Profile.isActive := Account.isActive user;
  Profile.createdAt := Account.createdAt user
|}.

(** The body of POST /api/auth/login. *)
Module Credentials.
Record t := { email : option string; password : option string }.
End Credentials.

(** The body of POST /api/auth/register. *)
Module Registration.
Record t := {
  email : option string;
  password : option string;
  name : option string;
  storeName : option string
}.
End Registration.

(** The tenant that a registration creates. *)
Module NewTenant.
Record t := {
  id : Z;
  name : string;
  email : string;
  plan : string;
  subscriptionStatus : string;
  monthlyPrice : Z;
  trialEnds : timestamp;
  createdAt : timestamp;
  isActive : bool
}.
End NewTenant.

(** The new tenant in the tenants collection, of which the model keeps the
    fields that the routes read. *)
Definition stored_tenant (t : NewTenant.t) : Tenant.t := {|
  Tenant.id := NewTenant.id t;
  Tenant.name := NewTenant.name t;
  Tenant.subscriptionStatus := NewTenant.subscriptionStatus t;
  Tenant.trialEnds := NewTenant.trialEnds t;
  Tenant.isActive := NewTenant.isActive t
|}.

(** The answer of a login. *)
Module Session.
Record t := { user : Profile.t; token : string; expiresIn : Z }.
End Session.

(** The answer of a registration. *)
Module Welcome.
Record t := { user : Profile.t; tenant : NewTenant.t; token : string }.
End Welcome.

(** The body of PUT /api/settings/tenant, for the fields of a tenant that
    the model keeps. *)
Module TenantUpdates.
Record t := {
  id : option Z;
  name : option string;
  subscriptionStatus : option string;
  trialEnds : option timestamp;
  isActive : option bool
}.
End TenantUpdates.

(** The file that GET /api/backup answers. *)
Module Backup.
Record t := {
  users : list Account.t;
  products : list obj;
  sales : list Sale.t;
  tenants : list Tenant.t;
  settings : obj;
  backupDate : string
}.
End Backup.

(** [header.split(' ')] *)
Fixpoint split_space (s : string) : list string :=
  match s with
  | EmptyString => [EmptyString]
  | String c r =>
      if Ascii.eqb c " "%char then EmptyString :: split_space r
      else match split_space r with
           | [] => [String c EmptyString]
           | word :: words => String c word :: words
           end
  end.

(** 30 days in milliseconds, [30 * 24 * 60 * 60 * 1000]. *)
Definition thirty_days : Z := 30 * 24 * 60 * 60 * 1000.

Section Sessions.

(** The libraries and the runtime: [bcrypt.hash] with the salt it draws,
    [bcrypt.compare], [jwt.sign] and [jwt.verify] with the server's secret
    at a time, and [Date.prototype.toISOString]. *)
Variable bcrypt_hash : string → string → string.
Variable bcrypt_compare : string → string → bool.
Variable jwt_sign : User.t → timestamp → string.
Variable jwt_verify : string → timestamp → option User.t.
Variable toISOString : Z → string.

(** The [authenticateToken] middleware, on the Authorization header. *)
Definition authenticateToken (now : timestamp) (authHeader : option string)
    : gate User.t :=
  let token :=
    if truthy_string authHeader
    then split_space (default "" authHeader) !! 1%nat
    else None in
  if negb (truthy_string token)
  then Stop 401 "Token de acesso não fornecido"
  else match jwt_verify (default "" token) now with
       | Some decoded => Next decoded
       | None => Stop 403 "Token inválido ou expirado"
       end.

(** [{ id: user.id, email: user.email, role: user.role, tenantId: user.tenantId }] *)
Definition claims_of (user : Account.t) : User.t := {|
  User.id := Account.id user;
  User.email := Account.email user;
  User.role := Account.role user;
  User.tenantId := Account.tenantId user
|}.

(** POST /api/auth/login *)
Definition post_auth_login (now : timestamp) (body : Credentials.t)
    (users : list Account.t) : reply Session.t :=
  if negb (truthy_string (Credentials.email body))
     || negb (truthy_string (Credentials.password body))
  then Failure 400 "E-mail e senha são obrigatórios"
  else
    let email := default "" (Credentials.email body) in
    let password := default "" (Credentials.password body) in
    match List.find (λ u, String.eqb (Account.email u) email && Account.isActive u)
            users with
    | None => Failure 401 "Credenciais inválidas"
    | Some user =>
        if negb (bcrypt_compare password (Account.password user))
        then Failure 401 "Credenciais inválidas"
        else Json 200 {|
          Session.user := without_password user;
          Session.token := jwt_sign (claims_of user) now;
          Session.expiresIn := 24 * 60 * 60
        |}
    end.

(** [l.length > 0 ? Math.max(...l.map(x => x.id)) + 1 : 1] on integer ids. *)
Definition next_id (ids : list Z) : Z :=
  match ids with
  | [] => 1
  | x :: xs => foldl Z.max x xs + 1
  end.

(** POST /api/auth/register: the reply, and the tenants and users
    collections afterwards. [salt] is the salt that [bcrypt.hash] draws. *)
Definition post_auth_register (now : timestamp) (salt : string)
    (body : Registration.t) (users : list Account.t) (tenants : list Tenant.t)
    : reply Welcome.t * list Tenant.t * list Account.t :=
  if negb (truthy_string (Registration.email body))
     || negb (truthy_string (Registration.password body))
     || negb (truthy_string (Registration.name body))
     || negb (truthy_string (Registration.storeName body))
  then (Failure 400 "Todos os campos são obrigatórios", tenants, users)
  else
    let email := default "" (Registration.email body) in
    let password := default "" (Registration.password body) in
    let name := default "" (Registration.name body) in
    let storeName := default "" (Registration.storeName body) in
    if (String.length password <? 6)%nat
    then (Failure 400 "A senha deve ter pelo menos 6 caracteres", tenants, users)
    else if existsb (λ u, String.eqb (Account.email u) email) users
    then (Failure 400 "E-mail já cadastrado", tenants, users)
    else
      let newTenantId := next_id (Tenant.id <$> tenants) in
      let newTenant := {|
        NewTenant.id := newTenantId;
        NewTenant.name := storeName;
        NewTenant.email := email;
        NewTenant.plan := "trial";
        NewTenant.subscriptionStatus := "trial";
        NewTenant.monthlyPrice := 0;
        NewTenant.trialEnds :=
          {| iso := toISOString (epoch_ms now + thirty_days);
             epoch_ms := epoch_ms now + thirty_days |};
        NewTenant.createdAt := now;
        NewTenant.isActive := true
      |} in
      let newUserId := next_id (Account.id <$> users) in
      let hashedPassword := bcrypt_hash password salt in
      let newUser := {|
        Account.id := newUserId;
        Account.email := email;
        Account.password := hashedPassword;
        Account.name := name;
        Account.role := "admin";
        Account.tenantId := newTenantId;
        Account.isActive := true;
        Account.createdAt := now
      |} in
      let token :=
        jwt_sign {| User.id := newUserId; User.email := email;
                    User.role := "admin"; User.tenantId := newTenantId |} now in
      (Json 201 {| Welcome.user := without_password newUser;
                   Welcome.tenant := newTenant;
                   Welcome.token := token |},
       tenants ++ [stored_tenant newTenant], users ++ [newUser]).

(** GET /api/settings, behind the tenant gate. *)
Definition get_settings (user : User.t) (tenants : list Tenant.t) (settings : obj)
    : reply (Tenant.t * obj) :=
  match List.find (λ t, Tenant.id t =? User.tenantId user) tenants with
  | None => Failure 404 "Conta não encontrada"
  | Some tenant => Json 200 (tenant, settings)
  end.

(** [{ ...tenant, ...updates }] on the fields of a tenant. *)
Definition merge_tenant (tenant : Tenant.t) (updates : TenantUpdates.t) : Tenant.t := {|
  Tenant.id := default (Tenant.id tenant) (TenantUpdates.id updates);
  Tenant.name := default (Tenant.name tenant) (TenantUpdates.name updates);
  Tenant.subscriptionStatus :=
    default (Tenant.subscriptionStatus tenant)
      (TenantUpdates.subscriptionStatus updates);
  Tenant.trialEnds :=
    default (Tenant.trialEnds tenant) (TenantUpdates.trialEnds updates);
  Tenant.isActive := default (Tenant.isActive tenant) (TenantUpdates.isActive updates)
|}.

(** PUT /api/settings/tenant, behind the tenant gate: the reply and the
    tenants collection afterwards. *)
Definition put_settings_tenant (user : User.t) (updates : TenantUpdates.t)
    (tenants : list Tenant.t) : reply Tenant.t * list Tenant.t :=
  match findIndex (λ t, Tenant.id t =? User.tenantId user) tenants with
  | None => (Failure 404 "Conta não encontrada", tenants)
  | Some index =>
      match tenants !! index with
      | None => (Failure 404 "Conta não encontrada", tenants)
      | Some tenant =>
          let tenant' := merge_tenant tenant updates in
          (Json 200 tenant', <[index := tenant']> tenants)
      end
  end.

(** GET /api/backup, behind [authenticateToken] alone. *)
Definition get_backup (user : User.t) (now : timestamp)
    (users : list Account.t) (products : list obj) (sales : list Sale.t)
    (tenants : list Tenant.t) (settings : obj) : reply Backup.t :=
  if negb (String.eqb (User.role user) "admin")
  then Failure 403 "Acesso negado"
  else Json 200 {|
    Backup.users := users;
    Backup.products := products;
    Backup.sales := sales;
    Backup.tenants := tenants;
    Backup.settings := settings;
    Backup.backupDate := iso now
  |}.

End Sessions.

(** ** Vocabulary of the specification *)

(** The parts of the triple that POST /api/sales yields. *)
Definition reply_of {A B C} (out : A * B * C) : A := out.1.1.
Definition sales_after {A B C} (out : A * B * C) : B := out.1.2.
Definition products_after {A B C} (out : A * B * C) : C := out.2.

Definition payload_of {A} (r : reply A) : option A :=
  match r with Json _ x => Some x | Failure _ _ => None end.

(** [Σ (item.price × item.quantity)] over the line items. *)
Fixpoint line_sum (items : list Item.t) : Z :=
  match items with
  | [] => 0
  | item :: r => Item.price item * Item.quantity item + line_sum r
  end.

(** The greatest of [x] and the elements of [l]. *)
Fixpoint maximum (x : Z) (l : list Z) : Z :=
  match l with
  | [] => x
  | y :: r => Z.max x (maximum y r)
  end.



(** A required text field that the request does not carry: not sent, or
    sent empty. *)
Definition missing (field : option string) : Prop :=
  field = None ∨ field = Some "".

(** [items] is there and is no list. *)
Definition not_a_list (field : option items_value) : Prop :=
  ∃ x, field = Some x ∧ ∀ l, x ≠ ItemsArray l.

(** The reading of a string of decimal digits, to run the routes on
    examples; none of them reads any other string as a number. *)
Definition digit_of (c : ascii) : option Z :=
  let n := nat_of_ascii c in
  if ((48 <=? n) && (n <=? 57))%nat then Some (Z.of_nat (n - 48)) else None.

Fixpoint read_digits (acc : Z) (s : string) : number :=
  match s with
  | EmptyString => Num acc
  | String c r =>
      match digit_of c with
      | Some d => read_digits (10 * acc + d) r
      | None => NaN
      end
  end.

Definition decimal_reading (s : string) : number := read_digits 0 s.

(** The tenant that [tenants.find(t => t.id === req.user.tenantId)] yields:
    the first one with the user's tenant id. *)
Definition resolves (user : User.t) (tenants : list Tenant.t) (t : Tenant.t) : Prop :=
  ∃ before after,
    tenants = before ++ t :: after ∧
    Tenant.id t = User.tenantId user ∧
    ∀ t', t' ∈ before → Tenant.id t' ≠ User.tenantId user.

(** No tenant has the user's tenant id. *)
Definition not_found (user : User.t) (tenants : list Tenant.t) : Prop :=
  ∀ t, t ∈ tenants → Tenant.id t ≠ User.tenantId user.

(** The subscription is not active and the trial expiry is in the past. *)
Definition lapsed (now : timestamp) (t : Tenant.t) : Prop :=
  Tenant.subscriptionStatus t ≠ "active"
  ∧ epoch_ms (Tenant.trialEnds t) < epoch_ms now.

(** A product record that differs from another at most in its stock and its
    update timestamp. *)
Definition same_but_stock (p p' : obj) : Prop :=
  ∀ k, k ≠ "stock" → k ≠ "updatedAt" → p' !! k = p !! k.














(** [text] contains [query], letter case apart. *)
Definition contains_ignoring_case (query text : string) : bool :=
  includes (toLowerCase query) (toLowerCase text).



(** ** Vocabulary of the further properties *)

(** The product that PUT /api/products/:id looks for: of that id and of the
    user's tenant. *)
Definition is_target (user : User.t) (productId : number) (p : obj) : bool :=
  strict_eq (p !! "id") (Some (VNum productId)) && owned_by user p.





(** [x] is the first element of [l] that [f] accepts. *)
Definition first_match {A} (f : A → bool) (l : list A) (x : A) : Prop :=
  ∃ before after,
    l = before ++ x :: after ∧ f x = true ∧ ∀ y, y ∈ before → f y = false.

(** A text without a space. *)
Fixpoint no_space (s : string) : bool :=
  match s with
  | EmptyString => true
  | String c r => negb (Ascii.eqb c " "%char) && no_space r
  end.

(** ** Examples *)

Definition clerk : User.t := {|
  User.id := 1; User.email := "admin@pdv.com"; User.role := "admin";
  User.tenantId := 1
|}.

Definition rival : User.t := {|
  User.id := 2; User.email := "dono@outra.com"; User.role := "admin";
  User.tenantId := 2
|}.

Definition noon : timestamp :=
  {| iso := "2024-03-02T12:00:00.000Z"; epoch_ms := 1709380800000 |}.

Definition eve : timestamp :=
  {| iso := "2024-03-01T12:00:00.000Z"; epoch_ms := 1709294400000 |}.

(** A product of tenant 1 with a stock of 3. *)
Definition agua : obj :=
  list_to_map [("id", VNum (Num 1)); ("tenantId", VNum (Num 1));
               ("barcode", VStr "7891000142007"); ("name", VStr "Agua");
               ("price", VNum (Num 250)); ("stock", VNum (Num 3))].

(** A product of tenant 1 whose barcode has letters. *)
Definition widget : obj :=
  list_to_map [("id", VNum (Num 2)); ("tenantId", VNum (Num 1));
               ("barcode", VStr "ABC"); ("name", VStr "Widget");
               ("price", VNum (Num 100)); ("stock", VNum (Num 1))].

(** A create request that names the tenant it wants the product under. *)
Definition smuggled : obj :=
  list_to_map [("name", VStr "X"); ("price", VNum (Num 1));
               ("stock", VNum (Num 1)); ("tenantId", VNum (Num 2))].

Definition line (productId price quantity : Z) : Item.t := {|
  Item.productId := productId; Item.productName := None;
  Item.price := price; Item.quantity := quantity
|}.

Definition cash_request (items : list Item.t) : SaleData.t := {|
  SaleData.items := Some (ItemsArray items);
  SaleData.paymentMethod := Some "cash";
  SaleData.cashReceived := None; SaleData.cashChange := None;
  SaleData.notes := None
|}.

Definition sale_at (created : timestamp) (items : list Item.t) : Sale.t := {|
  Sale.id := 1; Sale.tenantId := 1; Sale.userId := 1;
  Sale.items := items; Sale.total := line_sum items;
  Sale.paymentMethod := "cash";
  Sale.cashReceived := None; Sale.cashChange := None;
  Sale.status := "completed"; Sale.notes := "";
  Sale.createdAt := created
|}.


(** A sale of the day before [noon]. *)
Definition old_sale : Sale.t := sale_at eve [line 1 10 1].

(** A create request without id, tenant or barcode, and a stock of 0. *)
Definition soda : obj :=
  list_to_map [("name", VStr "Soda"); ("price", VNum (Num 300));
               ("stock", VNum (Num 0))].


(** A tenant on a trial that ends at [noon]. *)
Definition loja : Tenant.t := {|
  Tenant.id := 1; Tenant.name := "Loja"; Tenant.subscriptionStatus := "trial";
  Tenant.trialEnds := noon; Tenant.isActive := true
|}.

(** A year after [noon]. *)
Definition next_year : timestamp :=
  {| iso := "2025-03-02T12:00:00.000Z"; epoch_ms := 1740916800000 |}.

(** A settings body that sets the subscription to active. *)
Definition upgrade : TenantUpdates.t := {|
  TenantUpdates.id := None; TenantUpdates.name := None;
  TenantUpdates.subscriptionStatus := Some "active";
  TenantUpdates.trialEnds := None; TenantUpdates.isActive := None
|}.

(** A registration. *)
Definition ana : Registration.t := {|
  Registration.email := Some "ana@loja.com";
  Registration.password := Some "segredo";
  Registration.name := Some "Ana";
  Registration.storeName := Some "Loja da Ana"
|}.

(** Stand-ins for the libraries, to run the routes on examples: a hash that
    is the salt, a dollar sign and the password; a comparison that accepts a
    hash ending in a dollar sign and the password; a token that is the
    e-mail of the claims and the time of signing; the text of the one time
    that the examples print, thirty days after [noon]. *)
Definition example_hash (password salt : string) : string :=
  salt +:+ String "$"%char password.

Fixpoint ends_with (suffix s : string) : bool :=
  String.eqb suffix s
  || match s with
     | EmptyString => false
     | String _ r => ends_with suffix r
     end.

Definition example_compare (password hash : string) : bool :=
  ends_with (String "$"%char password) hash.

Definition example_sign (claims : User.t) (now : timestamp) : string :=
  User.email claims +:+ String " "%char (iso now).

Definition example_iso (ms : Z) : string := "2024-04-01T12:00:00.000Z".

(** ** Basic facts *)

Lemma lookup_stringify (o : obj) (k : string) :
  stringify o !! k = stringify_value <$> o !! k.
Proof. unfold stringify. apply lookup_fmap. Qed.

Lemma stringify_clean (o : obj) : json_clean o → stringify o = o.
Proof.
  intros Hclean. apply map_eq. intros k. rewrite lookup_stringify.
  destruct (o !! k) as [v|] eqn:Hk; [|done]. specialize (Hclean k v Hk).
  destruct v as [| |[]|]; simpl; congruence.
Qed.

Lemma writeFile_lookup (l : list obj) (i : nat) :
  writeFile l !! i = stringify <$> l !! i.
Proof. unfold writeFile. apply list_lookup_fmap. Qed.

Lemma findIndex_Some {A} (pred : A → bool) (l : list A) (i : nat) :
  findIndex pred l = Some i →
  ∃ x, l !! i = Some x ∧ pred x = true.
Proof.
  revert i. induction l as [|y r IH]; intros i; simpl; [done|].
  destruct (pred y) eqn:Hy.
  - intros [= <-]. eauto.
  - destruct (findIndex pred r) as [j|]; simpl; [|done].
    intros [= <-]. destruct (IH j eq_refl) as (x & ? & ?). eauto.
Qed.

Lemma findIndex_None {A} (pred : A → bool) (l : list A) :
  findIndex pred l = None → ∀ x, x ∈ l → pred x = false.
Proof.
  induction l as [|y r IH]; simpl; intros Hnone x Hx.
  - by apply elem_of_nil in Hx.
  - destruct (pred y) eqn:Hy; [done|].
    destruct (findIndex pred r); [done|].
    apply elem_of_cons in Hx as [->|Hx]; auto.
Qed.

Lemma maximum_max (x y : Z) (l : list Z) :
  maximum (Z.max x y) l = Z.max x (maximum y l).
Proof.
  revert x y. induction l as [|z r IH]; intros x y; simpl; [done|].
  rewrite Z.max_assoc. done.
Qed.



(** ** Product creation *)


(** ** Sale validation and total *)

Lemma truthy_string_missing (field : option string) :
  truthy_string field = false ↔ missing field.
Proof.
  unfold missing. destruct field as [[|c s]|]; simpl; split; intros H;
    try done; auto; destruct H as [H|H]; done.
Qed.

Lemma items_rejected (field : option items_value) :
  negb (truthy_items field) || negb (isArray field)
    || (length (elements field) =? 0)%nat = true
  ↔ field = None ∨ not_a_list field ∨ field = Some (ItemsArray []).
Proof.
  unfold not_a_list. destruct field as [[v| |[|item items]]|]; simpl.
  - rewrite orb_true_r. split; [|done]. intros _. right. left.
    eexists. split; [reflexivity|done].
  - split; [|done]. intros _. right. left. eexists. split; [reflexivity|done].
  - split; [|done]. auto.
  - split; [done|]. intros [H|[(x & [= <-] & Hx)|H]]; try done.
    by destruct (Hx (item :: items)).
  - split; [|done]. auto.
Qed.

(** C4. The sale processor answers 400 exactly when the request's [items]
    field is missing, is no list or is an empty list, or the payment method
    is missing; in every such case no sale is recorded and no product is
    changed. *)
Theorem sale_validation S2N (user : User.t) (now : timestamp)
    (saleData : SaleData.t) (sales : list Sale.t) (products : list obj) :
  let out := post_sales S2N user now saleData sales products in
  (status_of (reply_of out) = 400 ↔
     SaleData.items saleData = None
     ∨ not_a_list (SaleData.items saleData)
     ∨ SaleData.items saleData = Some (ItemsArray [])
     ∨ missing (SaleData.paymentMethod saleData))
  ∧ (status_of (reply_of out) = 400 →
     sales_after out = sales ∧ products_after out = products).
Proof.
  cbv zeta. unfold post_sales, reply_of, sales_after, products_after.
  pose proof (items_rejected (SaleData.items saleData)) as Hitems.
  pose proof (truthy_string_missing (SaleData.paymentMethod saleData)) as Hpm.
  destruct (negb (truthy_items (SaleData.items saleData))
            || negb (isArray (SaleData.items saleData))
            || (length (elements (SaleData.items saleData)) =? 0)%nat) eqn:Hbad.
  - simpl. split; [|done]. split; [|done]. intros _.
    destruct Hitems as [Hitems _]. destruct (Hitems eq_refl) as [?|[?|?]]; auto.
  - destruct (truthy_string (SaleData.paymentMethod saleData)) eqn:Htruthy; simpl.
    + split; [|done]. split; [done|]. intros Hcase.
      assert (SaleData.items saleData = None
              ∨ not_a_list (SaleData.items saleData)
              ∨ SaleData.items saleData = Some (ItemsArray [])) as Hrej.
      { destruct Hcase as [?|[?|[?|Hmiss]]]; auto.
        apply Hpm in Hmiss. done. }
      apply Hitems in Hrej. done.
    + split; [|done]. split; [|done]. intros _. do 3 right. by apply Hpm.
Qed.

(** A request that passes validation is recorded. *)
Lemma post_sales_valid S2N (user : User.t) (now : timestamp)
    (saleData : SaleData.t) (sales : list Sale.t) (products : list obj)
    (items : list Item.t) :
  SaleData.items saleData = Some (ItemsArray items) →
  items ≠ [] →
  ¬ missing (SaleData.paymentMethod saleData) →
  ∃ sale,
    post_sales S2N user now saleData sales products
    = (Json 201 sale, sales ++ [sale],
       writeFile (adjust_stocks S2N user now items products))
    ∧ Sale.items sale = items
    ∧ Sale.total sale = sale_total items
    ∧ Sale.tenantId sale = User.tenantId user
    ∧ Sale.status sale = "completed".
Proof.
  intros Hitems Hne Hpm. unfold post_sales. rewrite Hitems.
  destruct items as [|item r]; [done|].
  destruct (truthy_string (SaleData.paymentMethod saleData)) eqn:Htruthy;
    [|by apply truthy_string_missing in Htruthy].
  cbn [truthy_items isArray elements negb orb length Nat.eqb].
  eexists. split; [reflexivity|]. done.
Qed.



(** ** Tenant gate *)

Lemma find_resolves (user : User.t) (tenants : list Tenant.t) (t : Tenant.t) :
  List.find (λ t, Tenant.id t =? User.tenantId user) tenants = Some t
  ↔ resolves user tenants t.
Proof.
  unfold resolves. induction tenants as [|x r IH]; simpl.
  - split; [done|]. intros (before & after & Heq & _). by destruct before.
  - destruct (Z.eqb_spec (Tenant.id x) (User.tenantId user)) as [Hx|Hx].
    + split.
      * intros [= <-]. exists [], r. split; [done|]. split; [done|].
        intros t' Ht'. by apply elem_of_nil in Ht'.
      * intros (before & after & Heq & Hid & Hbefore).
        destruct before as [|y before]; simpl in Heq.
        -- by injection Heq as -> _.
        -- injection Heq as <- _. destruct (Hbefore x); [left|done].
    + rewrite IH. split.
      * intros (before & after & -> & Hid & Hbefore).
        exists (x :: before), after. split; [done|]. split; [done|].
        intros t' [->|Ht']%elem_of_cons; auto.
      * intros (before & after & Heq & Hid & Hbefore).
        destruct before as [|y before]; simpl in Heq.
        -- injection Heq as -> _. done.
        -- injection Heq as <- ->. exists before, after.
           split; [done|]. split; [done|].
           intros t' Ht'. apply Hbefore. by right.
Qed.

Lemma find_not_found (user : User.t) (tenants : list Tenant.t) :
  List.find (λ t, Tenant.id t =? User.tenantId user) tenants = None
  ↔ not_found user tenants.
Proof.
  unfold not_found. induction tenants as [|x r IH]; simpl.
  - split; [|done]. intros _ t Ht. by apply elem_of_nil in Ht.
  - destruct (Z.eqb_spec (Tenant.id x) (User.tenantId user)) as [Hx|Hx].
    + split; [done|]. intros H. destruct (H x); [left|done].
    + rewrite IH. split.
      * intros H t [->|Ht]%elem_of_cons; auto.
      * intros H t Ht. apply H. by right.
Qed.

Lemma resolves_functional (user : User.t) (tenants : list Tenant.t) (t t' : Tenant.t) :
  resolves user tenants t → resolves user tenants t' → t = t'.
Proof.
  intros H H'. apply find_resolves in H, H'. congruence.
Qed.

Lemma gate_lapsed (now : timestamp) (t : Tenant.t) :
  negb (String.eqb (Tenant.subscriptionStatus t) "active")
    && (epoch_ms (Tenant.trialEnds t) <? epoch_ms now) = true
  ↔ lapsed now t.
Proof.
  unfold lapsed. rewrite andb_true_iff, negb_true_iff, Z.ltb_lt.
  destruct (String.eqb_spec (Tenant.subscriptionStatus t) "active");
    split; intros [? ?]; done.
Qed.

(** C6. After authentication the tenant gate answers 403 exactly when the
    tenant is not found, its [isActive] flag is false, or its subscription
    status is not active and its trial expiry is in the past; otherwise the
    request proceeds with the tenant attached, and the gate has no other
    outcome. *)
Theorem tenant_gate_forbids (user : User.t) (now : timestamp)
    (tenants : list Tenant.t) :
  let forbidden :=
    not_found user tenants
    ∨ ∃ t, resolves user tenants t ∧ (Tenant.isActive t = false ∨ lapsed now t) in
  ((∃ e, validateTenant user now tenants = Stop 403 e) ↔ forbidden)
  ∧ (¬ forbidden →
     ∃ t, resolves user tenants t ∧ validateTenant user now tenants = Next t)
  ∧ (forbidden ∨ ∃ t, validateTenant user now tenants = Next t).
Proof.
  cbv zeta. unfold validateTenant.
  pose proof (find_resolves user tenants) as Hsome.
  pose proof (find_not_found user tenants) as Hnone.
  destruct (List.find _ tenants) as [t|].
  - assert (resolves user tenants t) as Ht by (by apply Hsome).
    pose proof (gate_lapsed now t) as Hlapsed.
    assert (¬ not_found user tenants) as Hfound.
    { intros H. apply Hnone in H. done. }
    destruct (Tenant.isActive t) eqn:Hactive; simpl.
    + destruct (negb _ && _) eqn:Hcond.
      * assert (lapsed now t) by (by apply Hlapsed).
        split; [|split].
        -- split; [intros _|eauto]. right. eauto.
        -- intros Hnf. destruct Hnf. right. eauto.
        -- left. right. eauto.
      * assert (¬ lapsed now t) as Hnl.
        { intros H. apply Hlapsed in H. done. }
        split; [|split].
        -- split; [by intros [e ?]|].
           intros [?|(t' & Ht' & [Hin|Hl])]; [done| |].
           ++ rewrite (resolves_functional _ _ _ _ Ht Ht') in Hactive. congruence.
           ++ rewrite (resolves_functional _ _ _ _ Ht Ht') in Hnl. done.
        -- eauto.
        -- eauto.
    + split; [|split].
      * split; [intros _|eauto]. right. eauto.
      * intros Hnf. destruct Hnf. right. eauto.
      * left. right. eauto.
  - assert (not_found user tenants) by (by apply Hnone).
    split; [|split].
    + split; eauto.
    + intros Hnf. destruct Hnf. by left.
    + left. by left.
Qed.

(** ** Stock updates of a sale *)

Lemma decrement_stock_frame S2N (now : timestamp) (item : Item.t) (p : obj) :
  same_but_stock p (decrement_stock S2N now item p).
Proof.
  intros k Hstock Hupdated. unfold decrement_stock.
  destruct (num_lt _ _); by rewrite !lookup_insert_ne.
Qed.


Lemma same_but_stock_refl (p : obj) : same_but_stock p p.
Proof. by intros k _ _. Qed.

Lemma same_but_stock_trans (p q r : obj) :
  same_but_stock p q → same_but_stock q r → same_but_stock p r.
Proof. intros Hpq Hqr k H1 H2. by rewrite Hqr, Hpq. Qed.


(** What the loop body leaves at an index: the record itself, or the
    decremented record of the product the item matched first. *)
Lemma adjust_stock_lookup S2N (user : User.t) (now : timestamp)
    (products : list obj) (item : Item.t) (i : nat) (p : obj) :
  products !! i = Some p →
  adjust_stock S2N user now products item !! i = Some p
  ∨ (findIndex (sold_product user item) products = Some i
     ∧ sold_product user item p = true
     ∧ adjust_stock S2N user now products item !! i
       = Some (decrement_stock S2N now item p)).
Proof.
  intros Hp. unfold adjust_stock.
  destruct (findIndex _ products) as [j|] eqn:Hfind; [|by left].
  destruct (findIndex_Some _ _ _ Hfind) as (x & Hx & Hpred). rewrite Hx.
  destruct (decide (j = i)) as [->|Hne].
  - right. rewrite Hp in Hx. injection Hx as <-.
    split; [done|]. split; [done|].
    apply list_lookup_insert_eq. by eapply lookup_lt_Some.
  - left. by rewrite list_lookup_insert_ne.
Qed.

Lemma adjust_stock_length S2N (user : User.t) (now : timestamp)
    (products : list obj) (item : Item.t) :
  length (adjust_stock S2N user now products item) = length products.
Proof.
  unfold adjust_stock. destruct (findIndex _ _); [|done].
  destruct (products !! _); [|done]. apply length_insert.
Qed.

(** The loop keeps every record at its place, up to stock and stamp. *)
Lemma adjust_stocks_frame S2N (user : User.t) (now : timestamp)
    (items : list Item.t) (products : list obj) (i : nat) (p : obj) :
  products !! i = Some p →
  ∃ p', adjust_stocks S2N user now items products !! i = Some p'
        ∧ same_but_stock p p'.
Proof.
  unfold adjust_stocks. revert products p.
  induction items as [|item r IH]; intros products p Hp; simpl.
  - exists p. split; [done|apply same_but_stock_refl].
  - destruct (adjust_stock_lookup S2N user now products item i p Hp)
      as [Hsame|(_ & _ & Hdec)].
    + by apply IH.
    + destruct (IH _ _ Hdec) as (p' & Hp' & Hframe). exists p'. split; [done|].
      eapply same_but_stock_trans; [apply decrement_stock_frame|done].
Qed.

(** A record that no line item matches is left as it is. *)
Lemma adjust_stocks_unmatched S2N (user : User.t) (now : timestamp)
    (items : list Item.t) (products : list obj) (i : nat) (p : obj) :
  products !! i = Some p →
  (∀ item, item ∈ items → sold_product user item p = false) →
  adjust_stocks S2N user now items products !! i = Some p.
Proof.
  unfold adjust_stocks. revert products.
  induction items as [|item r IH]; intros products Hp Hnone; simpl; [done|].
  apply IH; [|intros it Hit; apply Hnone; by right].
  destruct (adjust_stock_lookup S2N user now products item i p Hp)
    as [Hsame|(_ & Hsold & _)]; [done|].
  rewrite Hnone in Hsold by left. done.
Qed.








Lemma findIndex_no_match {A} (pred : A → bool) (l : list A) :
  (∀ x, x ∈ l → pred x = false) → findIndex pred l = None.
Proof.
  induction l as [|y r IH]; intros Hnone; simpl; [done|].
  rewrite (Hnone y) by left. rewrite IH; [done|].
  intros x Hx. apply Hnone. by right.
Qed.

Lemma stringify_value_clean (o : obj) (k : string) :
  json_clean o → stringify_value <$> o !! k = o !! k.
Proof.
  intros Hclean. rewrite <- lookup_stringify. by rewrite stringify_clean.
Qed.

(** C5. In a recorded sale, a line item whose product id matches no product
    of the requesting tenant raises no error, leaves every product record as
    it is, and is part of the persisted sale; the product records keep their
    places, differ from what they were at most in stock and update
    timestamp, and one that no line item matches by product id and tenant
    is unchanged. *)
Theorem unmatched_items_recorded S2N (user : User.t) (now : timestamp)
    (saleData : SaleData.t) (sales : list Sale.t) (products : list obj)
    (items : list Item.t) :
  SaleData.items saleData = Some (ItemsArray items) →
  items ≠ [] →
  ¬ missing (SaleData.paymentMethod saleData) →
  let out := post_sales S2N user now saleData sales products in
  (∃ sale,
     reply_of out = Json 201 sale ∧ sales_after out = sales ++ [sale]
     ∧ Sale.items sale = items)
  ∧ (∀ catalog item,
       (∀ p, p ∈ catalog → sold_product user item p = false) →
       adjust_stock S2N user now catalog item = catalog)
  ∧ length (products_after out) = length products
  ∧ (∀ i p,
       products !! i = Some p → json_clean p →
       ∃ p', products_after out !! i = Some p'
             ∧ same_but_stock p p'
             ∧ ((∀ item, item ∈ items → sold_product user item p = false) →
                p' = p)).
Proof.
  intros Hitems Hne Hpm. cbv zeta.
  destruct (post_sales_valid S2N user now saleData sales products items
              Hitems Hne Hpm) as (sale & -> & Hsold & _).
  unfold reply_of, sales_after, products_after. simpl.
  split; [by exists sale|]. split; [|split].
  - intros catalog item Hnone. unfold adjust_stock.
    by rewrite (findIndex_no_match _ _ Hnone).
  - unfold writeFile, adjust_stocks. rewrite length_fmap.
    clear. revert products.
    induction items as [|item r IH]; intros products; simpl; [done|].
    by rewrite IH, adjust_stock_length.
  - intros i p Hp Hclean.
    destruct (adjust_stocks_frame S2N user now items products i p Hp)
      as (p0 & Hp0 & Hframe).
    exists (stringify p0). rewrite writeFile_lookup, Hp0.
    split; [done|]. split.
    + intros k Hk1 Hk2. rewrite lookup_stringify, (Hframe k Hk1 Hk2).
      by apply stringify_value_clean.
    + intros Hnone.
      pose proof (adjust_stocks_unmatched S2N user now items products i p
                    Hp Hnone) as Hsame.
      rewrite Hsame in Hp0. injection Hp0 as <-. by apply stringify_clean.
Qed.

(** ** The stable sort *)

Section Sorting.
Context {A : Type} (key : A → Z).










End Sorting.

(** ** The accumulator of the statistics *)
















(** ** The ranking of the statistics *)





(** ** The dashboard *)





(** ** What holds of search and of the sales reports *)


(** A search answers at most 50 products. *)
Lemma search_capped (user : User.t) (q barcode : option string)
    (products result : list obj) :
  get_products_search user q barcode products = Json 200 result →
  (length result ≤ 50)%nat.
Proof.
  unfold get_products_search.
  destruct (if truthy_string barcode then _ else _) as [found|]; [|done].
  intros [= <-]. rewrite length_take. lia.
Qed.

(** With a barcode, the search is by exact barcode, whatever the query. *)
Lemma search_by_barcode (user : User.t) (q : option string) (barcode : string)
    (products : list obj) :
  barcode ≠ "" →
  get_products_search user q (Some barcode) products
  = Json 200
      (take 50 (filter (λ p, p !! "barcode" = Some (VStr barcode))
                  (filter (λ p, owned_by user p = true) products))).
Proof.
  intros Hne. unfold get_products_search.
  assert (truthy_string (Some barcode) = true) as ->.
  { simpl. by destruct barcode. }
  do 2 f_equal. apply list_filter_iff. intros p. simpl.
  destruct (p !! "barcode") as [[| |[]|text]|]; simpl; try (split; done).
  rewrite String.eqb_eq. split; [by intros ->|by intros [= ->]].
Qed.


(** The sales reports of a tenant hold sales of that tenant only. *)
Lemma sales_reports_scoped (user : User.t) (now : timestamp)
    (startDate endDate : option string) (sales : list Sale.t) (s : Sale.t) :
  s ∈ default [] (payload_of (get_sales_today user now sales))
  ∨ s ∈ stats_sales user startDate endDate sales →
  Sale.tenantId s = User.tenantId user.
Proof.
  unfold get_sales_today, stats_sales, completed_for. simpl. intros [Hs|Hs].
  - apply list_elem_of_filter in Hs as [Hs _].
    apply andb_prop in Hs as [Hs _]. apply andb_prop in Hs as [Hs _].
    by apply Z.eqb_eq.
  - assert (s ∈ filter (λ s, (Sale.tenantId s =? User.tenantId user)
                             && String.eqb (Sale.status s) "completed" = true)
                  sales) as Hin.
    { destruct (truthy_string endDate);
        [apply list_elem_of_filter in Hs as [_ Hs]|];
        (destruct (truthy_string startDate);
           [apply list_elem_of_filter in Hs as [_ Hs]|]); done. }
    apply list_elem_of_filter in Hin as [Hin _].
    apply andb_prop in Hin as [Hin _]. by apply Z.eqb_eq.
Qed.

(** A recorded sale is of the tenant of the user who recorded it. *)
Lemma recorded_sale_of_tenant S2N (user : User.t) (now : timestamp)
    (saleData : SaleData.t) (sales : list Sale.t) (products : list obj)
    (sale : Sale.t) :
  reply_of (post_sales S2N user now saleData sales products) = Json 201 sale →
  Sale.tenantId sale = User.tenantId user.
Proof.
  unfold post_sales, reply_of.
  destruct (_ || _); [done|]. destruct (negb _); [done|].
  simpl. by intros [= <-].
Qed.

(** ** The properties on examples *)



Lemma agua_clean : json_clean agua.
Proof. apply (bool_decide_unpack _). vm_compute. exact I. Qed.

Lemma unmatched_items_recorded_witness :
  (∃ sale,
     sales_after (post_sales decimal_reading clerk noon
                    (cash_request [line 9 5 1]) [] [agua]) = [sale]
     ∧ Sale.items sale = [line 9 5 1])
  ∧ products_after (post_sales decimal_reading clerk noon
                      (cash_request [line 9 5 1]) [] [agua]) !! 0%nat
    = Some agua.
Proof.
  destruct (unmatched_items_recorded decimal_reading clerk noon
              (cash_request [line 9 5 1]) [] [agua] [line 9 5 1])
    as ((sale & _ & Hsales & Hitems) & _ & _ & Hframe).
  - reflexivity.
  - discriminate.
  - intros [H|H]; discriminate H.
  - split; [by exists sale|].
    destruct (Hframe 0%nat agua eq_refl agua_clean) as (p' & Hp' & _ & Hsame).
    rewrite Hp'. f_equal. apply Hsame.
    intros item Hitem. apply list_elem_of_singleton in Hitem as ->.
    vm_compute. reflexivity.
Defined.



(** C3, where the code breaks it. A product created through a request
    authenticated as tenant 1, whose body names tenant 2, is stored under
    tenant 2 and is listed by GET /api/products for tenant 2. *)
Lemma product_created_across_tenants :
  let catalog := (post_products decimal_reading clerk noon smuggled []).2 in
  ∃ p,
    get_products rival catalog = Json 200 [p]
    ∧ p !! "name" = Some (VStr "X")
    ∧ get_products clerk catalog = Json 200 [].
Proof.
  cbv zeta. eexists. split; [|split].
  - vm_compute. reflexivity.
  - vm_compute. reflexivity.
  - vm_compute. reflexivity.
Qed.

(** C7, where the code breaks it. A search for the query "ABC" does not
    find the tenant's product whose barcode is "ABC": the query is put in
    lower case and the barcode is not. *)
Lemma barcode_search_misses_capitals :
  owned_by clerk widget = true
  ∧ widget !! "barcode" = Some (VStr "ABC")
  ∧ contains_ignoring_case "ABC" "ABC" = true
  ∧ get_products_search clerk (Some "ABC") None [agua; widget] = Json 200 [].
Proof.
  split; [|split; [|split]]; vm_compute; reflexivity.
Qed.



(** * Further properties of the routes *)

(** ** Product creation and update *)

(** X1. POST /api/products answers 400 exactly when the name or the price
    is falsy or the stock key is absent, and then leaves the catalog as it
    is; any other body is answered 201. So a price of 0 is refused, and a
    stock of 0 is accepted. *)
Theorem product_validation S2N (user : User.t) (now : timestamp)
    (product : obj) (products : list obj) :
  let out := post_products S2N user now product products in
  (status_of out.1 = 400 ↔
     truthy (product !! "name") = false
     ∨ truthy (product !! "price") = false
     ∨ product !! "stock" = None)
  ∧ (status_of out.1 = 400 → out.2 = products)
  ∧ (status_of out.1 = 400 ∨ status_of out.1 = 201)
  ∧ (product !! "price" = Some (VNum (Num 0)) → status_of out.1 = 400)
  ∧ (truthy (product !! "name") = true → truthy (product !! "price") = true →
     product !! "stock" = Some (VNum (Num 0)) → status_of out.1 = 201).
Proof.
  cbv zeta. unfold post_products.
  destruct (truthy (product !! "name")) eqn:Hname;
    destruct (truthy (product !! "price")) eqn:Hprice; simpl;
    try (split; [split; [auto|done]|];
         split; [done|]; split; [by left|]; split; [done|];
         intros; congruence).
  case_bool_decide as Hstock; simpl.
  - split; [split; [auto|done]|]. split; [done|]. split; [by left|].
    split; [done|]. intros _ _ Hzero. congruence.
  - split.
    { split; [done|]. intros [H|[H|H]]; congruence. }
    split; [done|]. split; [by right|]. split; [|done].
    intros Hzero. rewrite Hzero in Hprice. done.
Qed.

Lemma maximum_ge (x : Z) (l : list Z) (y : Z) :
  y = x ∨ y ∈ l → y ≤ maximum x l.
Proof.
  revert x. induction l as [|z r IH]; intros x; simpl.
  - intros [->|Hy]; [lia|by apply elem_of_nil in Hy].
  - intros [->|Hy]; [lia|].
    apply elem_of_cons in Hy.
    assert (y ≤ maximum z r) by (apply IH; tauto). lia.
Qed.



(** X3. A product created by a valid request that carries no [tenantId] is
    listed by GET /api/products for the tenant of the user who created it,
    and for no user of another tenant. *)
Theorem created_product_listed_for_its_tenant S2N (user other : User.t)
    (now : timestamp) (product : obj) (products : list obj) :
  truthy (product !! "name") = true →
  truthy (product !! "price") = true →
  is_Some (product !! "stock") →
  product !! "tenantId" = None →
  User.tenantId other ≠ User.tenantId user →
  let after := (post_products S2N user now product products).2 in
  ∃ stored,
    last after = Some stored
    ∧ stored ∈ default [] (payload_of (get_products user after))
    ∧ (stored ∉ default [] (payload_of (get_products other after))).
Proof.
  intros Hname Hprice [stock Hstock] Htenant Hother. cbv zeta.
  unfold post_products. rewrite Hname, Hprice. simpl.
  rewrite bool_decide_eq_false_2 by (rewrite Hstock; done). simpl.
  eexists. split.
  { unfold writeFile. rewrite fmap_app, list_fmap_singleton, last_snoc.
    reflexivity. }
  match goal with |- ?s ∈ _ ∧ _ =>
    assert (s !! "tenantId" = Some (VNum (Num (User.tenantId user)))) as Hstored
  end.
  { rewrite lookup_stringify. rewrite !lookup_insert_ne by done.
    unfold spread. rewrite lookup_union_r by done.
    by rewrite lookup_insert_eq. }
  split.
  - apply list_elem_of_filter. split.
    + unfold owned_by. rewrite Hstored. simpl. apply Z.eqb_refl.
    + unfold writeFile. rewrite fmap_app, list_fmap_singleton.
      apply elem_of_app. right. left.
  - intros [Howned _]%list_elem_of_filter.
    unfold owned_by in Howned. rewrite Hstored in Howned. simpl in Howned.
    apply Z.eqb_eq in Howned. congruence.
Qed.

Lemma findIndex_first {A} (pred : A → bool) (l : list A) (i : nat) (x : A) :
  l !! i = Some x →
  pred x = true →
  (∀ j y, (j < i)%nat → l !! j = Some y → pred y = false) →
  findIndex pred l = Some i.
Proof.
  revert i. induction l as [|z r IH]; intros i Hx Hpred Hfirst; [done|].
  destruct i as [|i]; simpl in *.
  - injection Hx as ->. by rewrite Hpred.
  - rewrite (Hfirst 0%nat z) by (done || lia).
    rewrite (IH i Hx Hpred); [done|].
    intros j y Hj Hy. apply (Hfirst (S j) y); [lia|done].
Qed.

(** X4. PUT /api/products/:id answers 404 exactly when no product has both
    that id and the tenant of the user, so that it never updates a product
    of another tenant; it then leaves the catalog as it is. Its only other
    answer is 200. *)
Theorem update_not_found (user : User.t) (now : timestamp) (productId : number)
    (updates : obj) (products : list obj) :
  let out := put_products user now productId updates products in
  (status_of out.1 = 404 ↔ ∀ p, p ∈ products → is_target user productId p = false)
  ∧ (status_of out.1 = 404 → out.2 = products)
  ∧ (status_of out.1 = 404 ∨ status_of out.1 = 200).
Proof.
  cbv zeta. unfold put_products.
  change (λ p : obj, strict_eq (p !! "id") (Some (VNum productId)) && owned_by user p)
    with (is_target user productId).
  destruct (findIndex (is_target user productId) products) as [i|] eqn:Hfind.
  - destruct (findIndex_Some _ _ _ Hfind) as (p & Hp & Htarget).
    rewrite Hp. simpl. split; [|split; [done|by right]].
    split; [done|]. intros Hnone.
    rewrite (Hnone p) in Htarget; [done|]. by eapply list_elem_of_lookup_2.
  - simpl. split; [|split; [done|by left]].
    split; [|done]. intros _. by apply findIndex_None.
Qed.

(** X5. When the first product of that id and of the user's tenant stands
    at index [i], PUT /api/products/:id answers 200 with that product
    updated: the keys of the body take the body's values, the other keys
    keep theirs, and [updatedAt] is the time of the request. The catalog
    keeps its length, holds the updated product at [i], and holds what it
    held everywhere else. *)
Theorem update_changes_one (user : User.t) (now : timestamp) (productId : number)
    (updates : obj) (products : list obj) (i : nat) (p : obj) :
  products !! i = Some p →
  is_target user productId p = true →
  (∀ j q, (j < i)%nat → products !! j = Some q → is_target user productId q = false) →
  Forall json_clean products →
  let out := put_products user now productId updates products in
  ∃ p',
    out.1 = Json 200 p'
    ∧ p' !! "updatedAt" = Some (VStr (iso now))
    ∧ (∀ k, k ≠ "updatedAt" →
         p' !! k = match updates !! k with Some v => Some v | None => p !! k end)
    ∧ length out.2 = length products
    ∧ out.2 !! i = Some (stringify p')
    ∧ ∀ j, j ≠ i → out.2 !! j = products !! j.
Proof.
  intros Hp Htarget Hfirst Hclean. cbv zeta. unfold put_products.
  change (λ p : obj, strict_eq (p !! "id") (Some (VNum productId)) && owned_by user p)
    with (is_target user productId).
  rewrite (findIndex_first _ _ _ _ Hp Htarget Hfirst), Hp. simpl.
  eexists. split; [reflexivity|]. split; [apply lookup_insert_eq|].
  split; [|split; [|split]].
  - intros k Hk. rewrite lookup_insert_ne by done. unfold spread.
    destruct (updates !! k) as [v|] eqn:Hv.
    + by rewrite (lookup_union_Some_l _ _ _ _ Hv).
    + by rewrite lookup_union_r.
  - unfold writeFile. by rewrite length_fmap, length_insert.
  - rewrite writeFile_lookup, list_lookup_insert_eq; [done|].
    by eapply lookup_lt_Some.
  - intros j Hj. rewrite writeFile_lookup, list_lookup_insert_ne by done.
    destruct (products !! j) as [q|] eqn:Hq; [|done]. simpl. f_equal.
    apply stringify_clean. rewrite Forall_forall in Hclean. apply Hclean.
    by eapply list_elem_of_lookup_2.
Qed.

(** ** Search *)

Lemma filter_throwing_sublist {A} (pred : A → option bool) (l r : list A) :
  filter_throwing pred l = Some r → r `sublist_of` l.
Proof.
  revert r. induction l as [|x l IH]; intros r; simpl.
  - intros [= <-]. constructor.
  - destruct (pred x) as [keep|]; [|done].
    destruct (filter_throwing pred l) as [r'|]; [|done].
    intros [= <-]. destruct keep.
    + apply sublist_skip. by apply IH.
    + apply sublist_cons. by apply IH.
Qed.


(** X6. Whatever its parameters, a search that answers at all answers some
    of the products that GET /api/products lists for the user, in the order
    of that listing and 50 at most; its only failure is 500. *)
Theorem search_within_listing (user : User.t) (q barcode : option string)
    (products : list obj) :
  match get_products_search user q barcode products with
  | Json status result =>
      status = 200
      ∧ result `sublist_of` default [] (payload_of (get_products user products))
      ∧ (length result ≤ 50)%nat
  | Failure status _ => status = 500
  end.
Proof.
  unfold get_products_search, get_products. simpl.
  set (tenantProducts := filter (λ p, owned_by user p = true) products).
  assert (∀ found, found `sublist_of` tenantProducts →
            take 50 found `sublist_of` tenantProducts
            ∧ (length (take 50 found) ≤ 50)%nat) as Hcap.
  { intros found Hfound. split.
    - etrans; [apply sublist_take|done].
    - rewrite length_take. lia. }
  destruct (truthy_string barcode).
  - split; [done|]. apply Hcap, sublist_filter.
  - destruct (truthy_string q).
    + destruct (filter_throwing _ tenantProducts) as [found|] eqn:Hfound; [|done].
      split; [done|]. by apply Hcap, (filter_throwing_sublist _ _ _ Hfound).
    + split; [done|]. by apply Hcap.
Qed.


Lemma elem_of_capped {A} (l found : list A) (x : A) :
  found `sublist_of` l → (length l ≤ 50)%nat → x ∈ take 50 found ↔ x ∈ found.
Proof.
  intros Hsub Hfew. rewrite take_ge; [done|].
  apply sublist_length in Hsub. lia.
Qed.

(** X7. A search with a barcode answers products of the user's tenant whose
    barcode is exactly that text, letter case included, and pays no heed to
    the query; on a catalog of 50 products at most it answers all of
    them. *)
Theorem barcode_search_is_exact (user : User.t) (barcode : string)
    (products : list obj) :
  barcode ≠ "" →
  ∃ result,
    (∀ q', get_products_search user q' (Some barcode) products = Json 200 result)
    ∧ (∀ p, p ∈ result →
         p ∈ products ∧ owned_by user p = true
         ∧ p !! "barcode" = Some (VStr barcode))
    ∧ ((length products ≤ 50)%nat →
       ∀ p, p ∈ products → owned_by user p = true →
            p !! "barcode" = Some (VStr barcode) → p ∈ result).
Proof.
  intros Hne. eexists. split; [|split].
  - intros q'. by apply search_by_barcode.
  - intros p Hp.
    assert (p ∈ filter (λ p, p !! "barcode" = Some (VStr barcode))
                  (filter (λ p, owned_by user p = true) products)) as Hin
      by (eapply elem_of_sublist; [exact Hp|apply sublist_take]).
    apply list_elem_of_filter in Hin as [Hcode Hin].
    by apply list_elem_of_filter in Hin as [Howned Hin].
  - intros Hfew p Hp Howned Hcode.
    apply (elem_of_capped products); [|done|].
    + etrans; apply sublist_filter.
    + apply list_elem_of_filter. split; [done|].
      by apply list_elem_of_filter.
Qed.


(** ** Sales *)

Lemma foldl_max_maximum (x : Z) (l : list Z) : foldl Z.max x l = maximum x l.
Proof.
  revert x. induction l as [|y r IH]; intros x; simpl; [done|].
  by rewrite IH, maximum_max.
Qed.

Lemma next_sale_id_fresh (sales : list Sale.t) (s : Sale.t) :
  s ∈ sales → Sale.id s < next_sale_id sales.
Proof.
  intros Hs. unfold next_sale_id.
  assert (Sale.id s ∈ Sale.id <$> sales) as Hid by (by apply list_elem_of_fmap_2).
  destruct (Sale.id <$> sales) as [|x r]; [by apply elem_of_nil in Hid|].
  rewrite foldl_max_maximum. apply elem_of_cons in Hid.
  assert (Sale.id s ≤ maximum x r) by (apply maximum_ge; tauto). lia.
Qed.

(** X10. A recorded sale gets an id greater than the id of every sale
    already stored, and is appended to them: sales whose ids are distinct
    stay so. *)
Theorem sale_ids_stay_distinct S2N (user : User.t) (now : timestamp)
    (saleData : SaleData.t) (sales : list Sale.t) (products : list obj)
    (items : list Item.t) :
  SaleData.items saleData = Some (ItemsArray items) →
  items ≠ [] →
  ¬ missing (SaleData.paymentMethod saleData) →
  let out := post_sales S2N user now saleData sales products in
  ∃ sale,
    sales_after out = sales ++ [sale]
    ∧ (∀ s, s ∈ sales → Sale.id s < Sale.id sale)
    ∧ (NoDup (Sale.id <$> sales) → NoDup (Sale.id <$> sales_after out)).
Proof.
  intros Hitems Hne Hpm. cbv zeta.
  destruct (post_sales_valid S2N user now saleData sales products items
              Hitems Hne Hpm) as (sale & Heq & _).
  assert (Sale.id sale = next_sale_id sales) as Hid.
  { unfold post_sales in Heq. destruct (_ || _); [done|].
    destruct (negb _); [done|]. by injection Heq as <- _ _. }
  rewrite Heq. unfold sales_after. simpl. exists sale.
  split; [done|]. split.
  - intros s Hs. rewrite Hid. by apply next_sale_id_fresh.
  - intros Hnodup. rewrite fmap_app. apply NoDup_app.
    split; [done|]. split; [|apply NoDup_singleton].
    intros x Hx Hx'. apply list_elem_of_singleton in Hx' as ->.
    apply list_elem_of_fmap in Hx as (s & Hsame & Hs).
    pose proof (next_sale_id_fresh sales s Hs). lia.
Qed.





(** ** Reports *)

Lemma prefix_before_T (s : string) : String.prefix (before_T s) s = true.
Proof.
  induction s as [|c r IH]; simpl; [done|].
  destruct (Ascii.eqb c "T"); simpl; [done|].
  by destruct (ascii_dec c c).
Qed.

Lemma length_pos_elem {A} (l : list A) (x : A) : x ∈ l → (1 ≤ length l)%nat.
Proof. destruct l; [by intros ?%elem_of_nil|simpl; lia]. Qed.

(** X12. A sale that is recorded is reported at once: at the same clock
    reading it is among the tenant's sales of the day, among the sales of
    its statistics without date bounds, and counted by the dashboard. *)
Theorem recorded_sale_is_reported S2N (user : User.t) (now : timestamp)
    (saleData : SaleData.t) (sales : list Sale.t) (products : list obj)
    (items : list Item.t) :
  SaleData.items saleData = Some (ItemsArray items) →
  items ≠ [] →
  ¬ missing (SaleData.paymentMethod saleData) →
  let out := post_sales S2N user now saleData sales products in
  ∃ sale overview,
    reply_of out = Json 201 sale
    ∧ sale ∈ default [] (payload_of (get_sales_today user now (sales_after out)))
    ∧ sale ∈ stats_sales user None None (sales_after out)
    ∧ get_dashboard_overview S2N user now (sales_after out) (products_after out)
      = Json 200 overview
    ∧ (1 ≤ Overview.totalSales overview)%nat.
Proof.
  intros Hitems Hne Hpm. cbv zeta.
  destruct (post_sales_valid S2N user now saleData sales products items
              Hitems Hne Hpm) as (sale & Heq & _ & _ & Htenant & Hstatus).
  assert (Sale.createdAt sale = now) as Hcreated.
  { unfold post_sales in Heq. destruct (_ || _); [done|].
    destruct (negb _); [done|]. by injection Heq as <- _ _. }
  rewrite Heq. unfold reply_of, sales_after, products_after. simpl.
  assert (sale ∈ sales ++ [sale]) as Hin by (apply elem_of_app; right; left).
  assert (created_on (today_of now) sale = true) as Htoday.
  { unfold created_on, today_of. rewrite Hcreated. apply prefix_before_T. }
  assert (completed_for user sale = true) as Hcompleted.
  { unfold completed_for. rewrite Htenant, Hstatus, Z.eqb_refl. done. }
  eexists sale, _. split; [done|]. split; [|split; [|split; [reflexivity|]]].
  - apply list_elem_of_filter. split; [|done].
    unfold completed_for in Hcompleted. apply andb_prop in Hcompleted as [-> ->].
    by rewrite Htoday.
  - unfold stats_sales. simpl. by apply list_elem_of_filter.
  - simpl. apply (length_pos_elem _ sale).
    apply list_elem_of_filter. split; [done|]. by apply list_elem_of_filter.
Qed.

(** X13. A sale recorded through a request of one tenant is never among the
    sales of the day or the sales of the statistics of a user of another
    tenant, whatever the sales collection, the day and the date bounds. *)
Theorem recorded_sale_not_reported_elsewhere S2N (user other : User.t)
    (now : timestamp) (saleData : SaleData.t) (sales : list Sale.t)
    (products : list obj) (sale : Sale.t) :
  reply_of (post_sales S2N user now saleData sales products) = Json 201 sale →
  User.tenantId other ≠ User.tenantId user →
  ∀ later startDate endDate stored,
    (sale ∉ default [] (payload_of (get_sales_today other later stored)))
    ∧ (sale ∉ stats_sales other startDate endDate stored).
Proof.
  intros Hreply Hother later startDate endDate stored.
  pose proof (recorded_sale_of_tenant _ _ _ _ _ _ _ Hreply) as Htenant.
  split; intros Hin.
  - pose proof (sales_reports_scoped other later startDate endDate stored sale
                  (or_introl Hin)). congruence.
  - pose proof (sales_reports_scoped other later startDate endDate stored sale
                  (or_intror Hin)). congruence.
Qed.


(** X15. The statistics are computed from exactly the completed sales of
    the user's tenant whose creation text is not before the start date, when
    one is given, and not after the end date followed by T23:59:59.999Z,
    when one is given; an empty date is no bound. They keep the stored
    order. *)
Theorem stats_date_range (user : User.t) (startDate endDate : option string)
    (sales : list Sale.t) :
  (∀ s, s ∈ stats_sales user startDate endDate sales ↔
     s ∈ sales
     ∧ Sale.tenantId s = User.tenantId user
     ∧ Sale.status s = "completed"
     ∧ (∀ d, startDate = Some d → d ≠ "" →
          String.leb d (iso (Sale.createdAt s)) = true)
     ∧ (∀ d, endDate = Some d → d ≠ "" →
          String.leb (iso (Sale.createdAt s)) (d +:+ "T23:59:59.999Z") = true))
  ∧ stats_sales user startDate endDate sales `sublist_of` sales.
Proof.
  assert (∀ d : option string,
            truthy_string d = true ↔ ∃ x, d = Some x ∧ x ≠ "") as Htruthy.
  { intros [[|c x]|]; simpl; split; try done.
    - intros (x & [= <-] & Hx). done.
    - intros _. eexists. split; [done|done].
    - intros (x & Hx & _). done. }
  split.
  - intros s. unfold stats_sales, completed_for.
    destruct (truthy_string endDate) eqn:Hend;
      destruct (truthy_string startDate) eqn:Hstart;
      rewrite ?list_elem_of_filter, andb_true_iff, Z.eqb_eq, String.eqb_eq.
    + apply Htruthy in Hend as (e & -> & He).
      apply Htruthy in Hstart as (b & -> & Hb). simpl. split.
      * intros (Hle & Hge & [? ?] & ?). repeat split; try done.
        -- by intros d [= <-] _.
        -- by intros d [= <-] _.
      * intros (? & ? & ? & Hge & Hle). repeat split; try done; eauto.
    + apply Htruthy in Hend as (e & -> & He). simpl. split.
      * intros (Hle & [? ?] & ?). repeat split; try done.
        -- intros d -> Hd.
           assert (truthy_string (Some d) = true) as Hyes
             by (apply Htruthy; eauto).
           congruence.
        -- by intros d [= <-] _.
      * intros (? & ? & ? & _ & Hle). repeat split; try done; eauto.
    + apply Htruthy in Hstart as (b & -> & Hb). simpl. split.
      * intros (Hge & [? ?] & ?). repeat split; try done.
        -- by intros d [= <-] _.
        -- intros d -> Hd.
           assert (truthy_string (Some d) = true) as Hyes
             by (apply Htruthy; eauto).
           congruence.
      * intros (? & ? & ? & Hge & _). repeat split; try done; eauto.
    + split.
      * intros ([? ?] & ?). repeat split; try done.
        -- intros d -> Hd.
           assert (truthy_string (Some d) = true) as Hyes
             by (apply Htruthy; eauto).
           congruence.
        -- intros d -> Hd.
           assert (truthy_string (Some d) = true) as Hyes
             by (apply Htruthy; eauto).
           congruence.
      * intros (? & ? & ? & _ & _). repeat split; done.
  - unfold stats_sales.
    destruct (truthy_string endDate); destruct (truthy_string startDate);
      repeat (etrans; [apply sublist_filter|]); done.
Qed.












(** * Accounts, sessions and settings *)

(** ** Finding the first match *)

Lemma find_first_match {A} (f : A → bool) (l : list A) (x : A) :
  List.find f l = Some x ↔ first_match f l x.
Proof.
  unfold first_match. induction l as [|z r IH]; simpl.
  - split; [done|]. intros (before & after & Heq & _). by destruct before.
  - destruct (f z) eqn:Hz.
    + split.
      * intros [= <-]. exists [], r. split; [done|]. split; [done|].
        intros y Hy. by apply elem_of_nil in Hy.
      * intros (before & after & Heq & Hx & Hbefore).
        destruct before as [|y before]; simpl in Heq.
        -- by injection Heq as -> _.
        -- injection Heq as <- _. rewrite Hbefore in Hz by left. done.
    + rewrite IH. split.
      * intros (before & after & -> & Hx & Hbefore).
        exists (z :: before), after. split; [done|]. split; [done|].
        intros y [->|Hy]%elem_of_cons; auto.
      * intros (before & after & Heq & Hx & Hbefore).
        destruct before as [|y before]; simpl in Heq.
        -- injection Heq as -> _. congruence.
        -- injection Heq as <- ->. exists before, after.
           split; [done|]. split; [done|].
           intros y' Hy'. apply Hbefore. by right.
Qed.

Lemma find_no_match {A} (f : A → bool) (l : list A) :
  List.find f l = None ↔ ∀ y, y ∈ l → f y = false.
Proof.
  induction l as [|z r IH]; simpl.
  - split; [|done]. intros _ y Hy. by apply elem_of_nil in Hy.
  - destruct (f z) eqn:Hz.
    + split; [done|]. intros H. rewrite H in Hz by left. done.
    + rewrite IH. split.
      * intros H y [->|Hy]%elem_of_cons; auto.
      * intros H y Hy. apply H. by right.
Qed.

Lemma findIndex_split {A} (f : A → bool) (before after : list A) (x : A) :
  f x = true →
  (∀ y, y ∈ before → f y = false) →
  findIndex f (before ++ x :: after) = Some (length before).
Proof.
  intros Hx. induction before as [|z r IH]; intros Hbefore; simpl.
  - by rewrite Hx.
  - rewrite (Hbefore z) by left.
    rewrite IH by (intros y Hy; apply Hbefore; by right). done.
Qed.


Lemma truthy_string_some (s : string) : s ≠ "" → truthy_string (Some s) = true.
Proof. intros Hs. simpl. by destruct s. Qed.

(** ** Registration and login *)

Section SessionFacts.
Variable bcrypt_hash : string → string → string.
Variable bcrypt_compare : string → string → bool.
Variable jwt_sign : User.t → timestamp → string.
Variable jwt_verify : string → timestamp → option User.t.
Variable toISOString : Z → string.

(** A registration with all its fields, a password of six characters or
    more and an e-mail that no user has is accepted. *)
Lemma registration_accepted (now : timestamp) (salt email password name storeName : string)
    (users : list Account.t) (tenants : list Tenant.t) :
  email ≠ "" → name ≠ "" → storeName ≠ "" →
  (6 ≤ String.length password)%nat →
  (∀ u, u ∈ users → Account.email u ≠ email) →
  ∃ welcome account,
    post_auth_register bcrypt_hash jwt_sign toISOString now salt
      {| Registration.email := Some email; Registration.password := Some password;
         Registration.name := Some name; Registration.storeName := Some storeName |}
      users tenants
    = (Json 201 welcome,
       tenants ++ [stored_tenant (Welcome.tenant welcome)], users ++ [account])
    ∧ Welcome.user welcome = without_password account
    ∧ Welcome.token welcome = jwt_sign (claims_of account) now
    ∧ Account.email account = email
    ∧ Account.password account = bcrypt_hash password salt
    ∧ Account.role account = "admin"
    ∧ Account.isActive account = true
    ∧ Account.id account = next_id (Account.id <$> users)
    ∧ Account.tenantId account = NewTenant.id (Welcome.tenant welcome)
    ∧ NewTenant.id (Welcome.tenant welcome) = next_id (Tenant.id <$> tenants)
    ∧ NewTenant.subscriptionStatus (Welcome.tenant welcome) = "trial"
    ∧ NewTenant.isActive (Welcome.tenant welcome) = true
    ∧ epoch_ms (NewTenant.trialEnds (Welcome.tenant welcome))
      = epoch_ms now + thirty_days.
Proof.
  intros Hemail Hname Hstore Hlength Hfresh. unfold post_auth_register.
  cbn [Registration.email Registration.password Registration.name
       Registration.storeName default from_option id].
  assert (password ≠ "") as Hpassword by (intros ->; simpl in Hlength; lia).
  rewrite !truthy_string_some by done. cbn [negb orb].
  assert ((String.length password <? 6)%nat = false) as ->
    by (apply Nat.ltb_ge; lia).
  assert (existsb (λ u, String.eqb (Account.email u) email) users = false) as ->.
  { apply not_true_is_false. intros (u & Hu & Heq)%existsb_exists.
    apply String.eqb_eq in Heq. apply (Hfresh u); [|done].
    by apply list_elem_of_In. }
  eexists _, _. split.
  { apply (f_equal2 pair); [apply (f_equal2 pair)|]; reflexivity. }
  done.
Qed.

End SessionFacts.




Lemma find_app_no_match {A} (f : A → bool) (l k : list A) :
  (∀ y, y ∈ l → f y = false) → List.find f (l ++ k) = List.find f k.
Proof.
  induction l as [|z r IH]; intros Hnone; simpl; [done|].
  rewrite (Hnone z) by left. apply IH. intros y Hy. apply Hnone. by right.
Qed.

(** X20. The account of an accepted registration can log in: when
    [bcrypt.compare] accepts the password against the hash that was stored,
    a login with the e-mail and the password is answered 200 at any time,
    with the profile of the account and a token of its claims, which carry
    the tenant that the registration created. *)
Theorem registered_account_logs_in (bcrypt_hash : string → string → string)
    (bcrypt_compare : string → string → bool)
    (jwt_sign : User.t → timestamp → string) (toISOString : Z → string)
    (now : timestamp) (salt email password name storeName : string)
    (users : list Account.t) (tenants : list Tenant.t) :
  email ≠ "" → name ≠ "" → storeName ≠ "" →
  (6 ≤ String.length password)%nat →
  (∀ u, u ∈ users → Account.email u ≠ email) →
  bcrypt_compare password (bcrypt_hash password salt) = true →
  let out := post_auth_register bcrypt_hash jwt_sign toISOString now salt
               {| Registration.email := Some email;
                  Registration.password := Some password;
                  Registration.name := Some name;
                  Registration.storeName := Some storeName |} users tenants in
  ∃ welcome,
    out.1.1 = Json 201 welcome
    ∧ ∀ later,
        ∃ session claims,
          post_auth_login bcrypt_compare jwt_sign later
            {| Credentials.email := Some email;
               Credentials.password := Some password |} out.2
          = Json 200 session
          ∧ Session.user session = Welcome.user welcome
          ∧ Session.token session = jwt_sign claims later
          ∧ User.email claims = email
          ∧ User.tenantId claims = NewTenant.id (Welcome.tenant welcome).
Proof.
  intros Hemail Hname Hstore Hlength Hfresh Hcompare. cbv zeta.
  destruct (registration_accepted bcrypt_hash jwt_sign toISOString now salt
              email password name storeName users tenants
              Hemail Hname Hstore Hlength Hfresh)
    as (welcome & account & -> & Huser & _ & Haccount & Hhash & _ & Hactive & _
        & Htenant & _).
  exists welcome. simpl. split; [done|]. intros later.
  assert (password ≠ "") as Hpassword by (intros ->; simpl in Hlength; lia).
  unfold post_auth_login.
  cbn [Credentials.email Credentials.password default from_option id].
  rewrite !truthy_string_some by done. cbn [negb orb].
  rewrite find_app_no_match.
  - simpl. rewrite Haccount, String.eqb_refl, Hactive. simpl.
    rewrite Hhash, Hcompare. simpl.
    eexists _, (claims_of account). split; [reflexivity|]. simpl.
    by rewrite Huser.
  - intros u Hu. apply andb_false_iff. left. apply String.eqb_neq.
    by apply Hfresh.
Qed.

(** X21. A login is answered 400 exactly when the e-mail or the password is
    missing. Otherwise it is answered 401, with one and the same message,
    when no active user has the e-mail or when [bcrypt.compare] rejects the
    password against the hash of the first active user that has it, and 200
    with a token of that user's claims when it accepts: a user that is not
    active never logs in. *)
Theorem login_outcomes (bcrypt_compare : string → string → bool)
    (jwt_sign : User.t → timestamp → string) (now : timestamp)
    (body : Credentials.t) (users : list Account.t) :
  let answer := post_auth_login bcrypt_compare jwt_sign now body users in
  (status_of answer = 400 ↔
     missing (Credentials.email body) ∨ missing (Credentials.password body))
  ∧ (∀ email password,
       Credentials.email body = Some email → email ≠ "" →
       Credentials.password body = Some password → password ≠ "" →
       let has_email u := String.eqb (Account.email u) email && Account.isActive u in
       ((∀ u, u ∈ users → Account.email u = email → Account.isActive u = false) →
        answer = Failure 401 "Credenciais inválidas")
       ∧ (∀ u, first_match has_email users u →
            (bcrypt_compare password (Account.password u) = false →
             answer = Failure 401 "Credenciais inválidas")
            ∧ (bcrypt_compare password (Account.password u) = true →
               answer = Json 200 {|
                 Session.user := without_password u;
                 Session.token := jwt_sign (claims_of u) now;
                 Session.expiresIn := 86400 |}))).
Proof.
  cbv zeta. unfold post_auth_login.
  pose proof (truthy_string_missing (Credentials.email body)) as He.
  pose proof (truthy_string_missing (Credentials.password body)) as Hp.
  split.
  - destruct (truthy_string (Credentials.email body)) eqn:Hemail; simpl;
      [|split; [intros _; left; by apply He|done]].
    destruct (truthy_string (Credentials.password body)) eqn:Hpassword; simpl;
      [|split; [intros _; right; by apply Hp|done]].
    split.
    + destruct (List.find _ users) as [u|]; [|done].
      by destruct (bcrypt_compare _ _).
    + intros [H|H]; [apply He in H|apply Hp in H]; done.
  - intros email password Hemail Hne Hpassword Hne'.
    rewrite Hemail, Hpassword. rewrite !truthy_string_some by done.
    cbn [negb orb default from_option id]. split.
    + intros Hnone.
      rewrite (proj2 (find_no_match _ users)); [done|].
      intros u Hu. destruct (String.eqb_spec (Account.email u) email) as [Heq|];
        [|done].
      by rewrite (Hnone u Hu Heq).
    + intros u Hfirst. apply find_first_match in Hfirst. rewrite Hfirst.
      split; intros ->; done.
Qed.

(** ** The Authorization header *)

Lemma split_space_word (s : string) : no_space s = true → split_space s = [s].
Proof.
  induction s as [|c r IH]; simpl; [done|].
  destruct (Ascii.eqb c " "); simpl; [done|].
  intros Hr. by rewrite (IH Hr).
Qed.

Lemma split_space_field (a b : string) :
  no_space a = true →
  split_space (a +:+ String " "%char b) = a :: split_space b.
Proof.
  induction a as [|c r IH]; simpl; [done|].
  destruct (Ascii.eqb c " "); simpl; [done|].
  intros Hr. by rewrite (IH Hr).
Qed.

(** X22. [authenticateToken] reads the token as the second of the fields
    that single spaces separate in the Authorization header. It answers 401
    when the header is absent, has no space, or has an empty second field;
    otherwise [jwt.verify] alone decides between 403 and the decoded claims:
    the first field, the scheme, is never looked at, and neither is
    anything after the second. *)
Theorem token_is_second_field (jwt_verify : string → timestamp → option User.t)
    (now : timestamp) :
  let unauthorized := Stop 401 "Token de acesso não fornecido" in
  authenticateToken jwt_verify now None = unauthorized
  ∧ (∀ word, no_space word = true →
       authenticateToken jwt_verify now (Some word) = unauthorized)
  ∧ (∀ scheme token header,
       no_space scheme = true → no_space token = true →
       header = scheme +:+ String " "%char token
       ∨ (∃ rest, header = scheme +:+ String " "%char (token +:+ String " "%char rest)) →
       (token = "" → authenticateToken jwt_verify now (Some header) = unauthorized)
       ∧ (token ≠ "" →
          authenticateToken jwt_verify now (Some header)
          = match jwt_verify token now with
            | Some decoded => Next decoded
            | None => Stop 403 "Token inválido ou expirado"
            end)).
Proof.
  cbv zeta. split; [done|]. split.
  - intros word Hword. unfold authenticateToken.
    destruct (truthy_string (Some word)); [|done].
    cbn [default from_option id]. by rewrite (split_space_word word Hword).
  - intros scheme token header Hscheme Htoken Hheader.
    assert (split_space header !! 1%nat = Some token) as Hsecond.
    { destruct Hheader as [->|(rest & ->)]; rewrite split_space_field by done.
      - by rewrite (split_space_word token Htoken).
      - by rewrite split_space_field. }
    assert (truthy_string (Some header) = true) as Htruthy.
    { apply truthy_string_some.
      destruct Hheader as [->|(rest & ->)]; by destruct scheme. }
    unfold authenticateToken. rewrite Htruthy.
    cbn [default from_option id]. rewrite Hsecond. split.
    + by intros ->.
    + intros Hne. rewrite truthy_string_some by done. done.
Qed.

(** ** Settings *)

(** X23. Behind the tenant gate GET /api/settings never answers 404: when
    [validateTenant] lets the request through with a tenant, the route
    answers 200 with that tenant and the system settings. *)
Theorem settings_found_behind_gate (user : User.t) (now : timestamp)
    (tenants : list Tenant.t) (settings : obj) (tenant : Tenant.t) :
  validateTenant user now tenants = Next tenant →
  get_settings user tenants settings = Json 200 (tenant, settings).
Proof.
  unfold validateTenant, get_settings.
  destruct (List.find _ tenants) as [t|]; [|done].
  destruct (negb _); [done|]. destruct (_ && _); [done|].
  by intros [= ->].
Qed.

Lemma put_settings_tenant_found (user : User.t) (updates : TenantUpdates.t)
    (before after : list Tenant.t) (t : Tenant.t) :
  Tenant.id t = User.tenantId user →
  (∀ y, y ∈ before → Tenant.id y ≠ User.tenantId user) →
  put_settings_tenant user updates (before ++ t :: after)
  = (Json 200 (merge_tenant t updates), before ++ merge_tenant t updates :: after).
Proof.
  intros Hid Hbefore. unfold put_settings_tenant.
  rewrite (findIndex_split _ before after t).
  - rewrite list_lookup_middle by done.
    rewrite insert_app_r_alt by done. by rewrite Nat.sub_diag.
  - by apply Z.eqb_eq.
  - intros y Hy. apply Z.eqb_neq. by apply Hbefore.
Qed.

(** X24. PUT /api/settings/tenant answers 404 exactly when no tenant has
    the user's tenant id, and then leaves the tenants as they were.
    Otherwise it answers 200 and replaces the first tenant with that id, and
    no other, by its merge with the body. *)
Theorem tenant_update_changes_one (user : User.t) (updates : TenantUpdates.t)
    (tenants : list Tenant.t) :
  let out := put_settings_tenant user updates tenants in
  (status_of out.1 = 404 ↔ not_found user tenants)
  ∧ (status_of out.1 = 404 → out.2 = tenants)
  ∧ (∀ before t after,
       tenants = before ++ t :: after →
       Tenant.id t = User.tenantId user →
       (∀ y, y ∈ before → Tenant.id y ≠ User.tenantId user) →
       out = (Json 200 (merge_tenant t updates),
              before ++ merge_tenant t updates :: after)).
Proof.
  cbv zeta. split; [|split].
  - destruct (List.find (λ t, Tenant.id t =? User.tenantId user) tenants)
      as [t|] eqn:Hfind.
    + apply find_first_match in Hfind as (before & after & -> & Hid & Hbefore).
      apply Z.eqb_eq in Hid.
      rewrite (put_settings_tenant_found user updates before after t Hid).
      * simpl. split; [done|]. intros Hnone. exfalso.
        apply (Hnone t); [|done]. apply elem_of_app. right. left.
      * intros y Hy. apply Z.eqb_neq. by apply Hbefore.
    + pose proof (proj1 (find_no_match _ _) Hfind) as Hnone.
      unfold put_settings_tenant.
      rewrite (findIndex_no_match _ tenants) by done. simpl.
      split; [|done]. intros _ t Ht. apply Z.eqb_neq. by apply Hnone.
  - unfold put_settings_tenant.
    destruct (findIndex _ tenants) as [index|]; [|done].
    by destruct (tenants !! index).
  - intros before t after -> Hid Hbefore.
    by apply put_settings_tenant_found.
Qed.

(** X25. A tenant sets its own subscription. After a request that passed
    the gate, whose body does not carry an id: a body that sets
    [subscriptionStatus] to "active" and leaves [isActive] alone makes the
    gate let the tenant through at every time from then on, whenever its
    trial ends; a body that sets [isActive] to false makes the gate answer
    403 at every time from then on. *)
Theorem tenant_sets_own_subscription (user : User.t) (now : timestamp)
    (updates : TenantUpdates.t) (tenants : list Tenant.t) (tenant : Tenant.t) :
  validateTenant user now tenants = Next tenant →
  TenantUpdates.id updates = None →
  let tenants' := (put_settings_tenant user updates tenants).2 in
  (TenantUpdates.subscriptionStatus updates = Some "active" →
   TenantUpdates.isActive updates = None →
   ∀ later, validateTenant user later tenants' = Next (merge_tenant tenant updates))
  ∧ (TenantUpdates.isActive updates = Some false →
     ∀ later, validateTenant user later tenants'
              = Stop 403 "Conta inativa ou não encontrada").
Proof.
  intros Hgate Hid. cbv zeta.
  assert (List.find (λ t, Tenant.id t =? User.tenantId user) tenants = Some tenant
          ∧ Tenant.isActive tenant = true) as [Hfind Hactive].
  { unfold validateTenant in Hgate.
    destruct (List.find _ tenants) as [t|]; [|done].
    destruct (Tenant.isActive t) eqn:Ht; [|done]. simpl in Hgate.
    destruct (_ && _); [done|]. injection Hgate as ->. done. }
  apply find_first_match in Hfind as (before & after & -> & Hmine & Hbefore).
  apply Z.eqb_eq in Hmine.
  rewrite (put_settings_tenant_found user updates before after tenant Hmine)
    by (intros y Hy; apply Z.eqb_neq; by apply Hbefore).
  cbn [snd].
  assert (List.find (λ t, Tenant.id t =? User.tenantId user)
            (before ++ merge_tenant tenant updates :: after)
          = Some (merge_tenant tenant updates)) as Hfind.
  { apply find_first_match. exists before, after. split; [done|].
    split; [|done]. simpl. rewrite Hid. simpl. by apply Z.eqb_eq. }
  split.
  - intros Hstatus Hsame later. unfold validateTenant. rewrite Hfind.
    simpl. rewrite Hstatus, Hsame. simpl. by rewrite Hactive.
  - intros Hoff later. unfold validateTenant. rewrite Hfind.
    simpl. by rewrite Hoff.
Qed.

(** ** Backup *)

(** X26. GET /api/backup answers 403 to claims whose role is not "admin".
    The claims that an accepted registration signs are an admin's, so the
    route answers them, at any time and whatever the tenant, with all the
    collections whole: the users of every tenant, the new account among
    them with its password hash, and every product and sale. *)
Theorem registrant_backs_up_everything (bcrypt_hash : string → string → string)
    (jwt_sign : User.t → timestamp → string) (toISOString : Z → string)
    (now : timestamp) (salt email password name storeName : string)
    (users : list Account.t) (tenants : list Tenant.t) :
  email ≠ "" → name ≠ "" → storeName ≠ "" →
  (6 ≤ String.length password)%nat →
  (∀ u, u ∈ users → Account.email u ≠ email) →
  let out := post_auth_register bcrypt_hash jwt_sign toISOString now salt
               {| Registration.email := Some email;
                  Registration.password := Some password;
                  Registration.name := Some name;
                  Registration.storeName := Some storeName |} users tenants in
  (∀ user later products sales settings,
     User.role user ≠ "admin" →
     get_backup user later out.2 products sales out.1.2 settings
     = Failure 403 "Acesso negado")
  ∧ ∃ welcome claims account,
      out.1.1 = Json 201 welcome
      ∧ Welcome.token welcome = jwt_sign claims now
      ∧ out.2 = users ++ [account]
      ∧ Account.password account = bcrypt_hash password salt
      ∧ ∀ later products sales settings,
          ∃ backup,
            get_backup claims later out.2 products sales out.1.2 settings
            = Json 200 backup
            ∧ Backup.users backup = users ++ [account]
            ∧ Backup.products backup = products
            ∧ Backup.sales backup = sales
            ∧ Backup.tenants backup = out.1.2.
Proof.
  intros Hemail Hname Hstore Hlength Hfresh. cbv zeta. split.
  - intros user later products sales settings Hrole. unfold get_backup.
    apply String.eqb_neq in Hrole. by rewrite Hrole.
  - destruct (registration_accepted bcrypt_hash jwt_sign toISOString now salt
                email password name storeName users tenants
                Hemail Hname Hstore Hlength Hfresh)
      as (welcome & account & -> & _ & Htoken & _ & Hhash & Hrole & _).
    exists welcome, (claims_of account), account. simpl.
    split; [done|]. split; [done|]. split; [done|]. split; [done|].
    intros later products sales settings. unfold get_backup. simpl.
    rewrite Hrole. simpl. by eexists.
Qed.

(** ** The further properties on examples *)

Lemma widget_clean : json_clean widget.
Proof. apply (bool_decide_unpack _). vm_compute. exact I. Qed.


Lemma created_product_listed_for_its_tenant_witness :
  ∃ stored,
    last (post_products decimal_reading clerk noon soda [agua]).2 = Some stored
    ∧ stored ∈ default [] (payload_of (get_products clerk
                 (post_products decimal_reading clerk noon soda [agua]).2))
    ∧ (stored ∉ default [] (payload_of (get_products rival
                 (post_products decimal_reading clerk noon soda [agua]).2))).
Proof.
  apply (created_product_listed_for_its_tenant decimal_reading clerk rival noon
           soda [agua]).
  - vm_compute. reflexivity.
  - vm_compute. reflexivity.
  - eexists. vm_compute. reflexivity.
  - vm_compute. reflexivity.
  - discriminate.
Defined.

Lemma update_changes_one_witness :
  ∃ p',
    (put_products clerk noon (Num 2) {["price" := VNum (Num 120)]}
       [agua; widget]).1 = Json 200 p'
    ∧ p' !! "price" = Some (VNum (Num 120))
    ∧ p' !! "name" = Some (VStr "Widget")
    ∧ (put_products clerk noon (Num 2) {["price" := VNum (Num 120)]}
         [agua; widget]).2 !! 0%nat = Some agua.
Proof.
  destruct (update_changes_one clerk noon (Num 2) {["price" := VNum (Num 120)]}
              [agua; widget] 1%nat widget)
    as (p' & Hreply & _ & Hkeys & _ & _ & Hframe).
  - reflexivity.
  - vm_compute. reflexivity.
  - intros j q Hj Hq. destruct j as [|j]; [|lia].
    injection Hq as <-. vm_compute. reflexivity.
  - repeat constructor; [exact agua_clean|exact widget_clean].
  - exists p'. split; [exact Hreply|]. split; [|split].
    + rewrite (Hkeys "price") by discriminate. vm_compute. reflexivity.
    + rewrite (Hkeys "name") by discriminate. vm_compute. reflexivity.
    + rewrite (Hframe 0%nat) by lia. reflexivity.
Defined.

Lemma barcode_search_is_exact_witness :
  ∃ result,
    get_products_search clerk (Some "zzz") (Some "ABC") [agua; widget]
    = Json 200 result
    ∧ widget ∈ result.
Proof.
  destruct (barcode_search_is_exact clerk "ABC" [agua; widget])
    as (result & Hreply & _ & Hall).
  - discriminate.
  - exists result. split; [apply Hreply|]. apply Hall.
    + simpl. lia.
    + right. left.
    + vm_compute. reflexivity.
    + vm_compute. reflexivity.
Defined.



Lemma sale_ids_stay_distinct_witness :
  ∃ sale,
    sales_after (post_sales decimal_reading clerk noon
                   (cash_request [line 1 250 1]) [old_sale] [agua])
    = [old_sale; sale]
    ∧ Sale.id old_sale < Sale.id sale.
Proof.
  destruct (sale_ids_stay_distinct decimal_reading clerk noon
              (cash_request [line 1 250 1]) [old_sale] [agua] [line 1 250 1])
    as (sale & Hsales & Hfresh & _).
  - reflexivity.
  - discriminate.
  - intros [H|H]; discriminate H.
  - exists sale. split; [exact Hsales|]. apply Hfresh. left.
Defined.


Lemma recorded_sale_is_reported_witness :
  ∃ sale overview,
    reply_of (post_sales decimal_reading clerk noon
                (cash_request [line 1 250 1]) [] [agua]) = Json 201 sale
    ∧ get_dashboard_overview decimal_reading clerk noon
        (sales_after (post_sales decimal_reading clerk noon
                        (cash_request [line 1 250 1]) [] [agua]))
        (products_after (post_sales decimal_reading clerk noon
                           (cash_request [line 1 250 1]) [] [agua]))
      = Json 200 overview
    ∧ (1 ≤ Overview.totalSales overview)%nat.
Proof.
  destruct (recorded_sale_is_reported decimal_reading clerk noon
              (cash_request [line 1 250 1]) [] [agua] [line 1 250 1])
    as (sale & overview & Hreply & _ & _ & Hoverview & Hcount).
  - reflexivity.
  - discriminate.
  - intros [H|H]; discriminate H.
  - exists sale, overview. split; [exact Hreply|]. split; [exact Hoverview|].
    exact Hcount.
Defined.

Lemma recorded_sale_not_reported_elsewhere_witness :
  sale_at noon [line 1 250 1]
  ∉ stats_sales rival None None [old_sale; sale_at noon [line 1 250 1]].
Proof.
  apply (recorded_sale_not_reported_elsewhere decimal_reading clerk rival noon
           (cash_request [line 1 250 1]) [] [agua] (sale_at noon [line 1 250 1])).
  - vm_compute. reflexivity.
  - discriminate.
  - exact noon.
Defined.



Lemma registered_account_logs_in_witness :
  ∃ session,
    post_auth_login example_compare example_sign next_year
      {| Credentials.email := Some "ana@loja.com";
         Credentials.password := Some "segredo" |}
      (post_auth_register example_hash example_sign example_iso noon "sal" ana
         [] []).2
    = Json 200 session.
Proof.
  destruct (registered_account_logs_in example_hash example_compare example_sign
              example_iso noon "sal" "ana@loja.com" "segredo" "Ana"
              "Loja da Ana" [] [])
    as (welcome & _ & Hlogin).
  - discriminate.
  - discriminate.
  - discriminate.
  - simpl. lia.
  - intros u Hu. by apply elem_of_nil in Hu.
  - vm_compute. reflexivity.
  - destruct (Hlogin next_year) as (session & claims & Hsession & _).
    exists session. exact Hsession.
Defined.

Lemma settings_found_behind_gate_witness :
  get_settings clerk [loja] ∅ = Json 200 (loja, ∅).
Proof.
  apply (settings_found_behind_gate clerk eve [loja] ∅ loja). reflexivity.
Defined.

Lemma tenant_sets_own_subscription_witness :
  validateTenant clerk next_year (put_settings_tenant clerk upgrade [loja]).2
  = Next (merge_tenant loja upgrade).
Proof.
  apply (tenant_sets_own_subscription clerk eve upgrade [loja] loja);
    reflexivity.
Defined.

Lemma registrant_backs_up_everything_witness :
  ∃ claims backup,
    get_backup claims next_year
      (post_auth_register example_hash example_sign example_iso noon "sal" ana
         [] []).2
      [agua] [old_sale]
      (post_auth_register example_hash example_sign example_iso noon "sal" ana
         [] []).1.2
      ∅
    = Json 200 backup
    ∧ Backup.products backup = [agua]
    ∧ Backup.sales backup = [old_sale].
Proof.
  destruct (registrant_backs_up_everything example_hash example_sign example_iso
              noon "sal" "ana@loja.com" "segredo" "Ana" "Loja da Ana" [] [])
    as (_ & welcome & claims & account & _ & _ & _ & _ & Hbackup).
  - discriminate.
  - discriminate.
  - discriminate.
  - simpl. lia.
  - intros u Hu. by apply elem_of_nil in Hu.
  - destruct (Hbackup next_year [agua] [old_sale] ∅)
      as (backup & Hreply & _ & Hproducts & Hsales & _).
    exists claims, backup. split; [exact Hreply|]. split; [exact Hproducts|].
    exact Hsales.
Defined.
